(** * Huobi price provider (price-server/src/provider/crypto/Huobi.ts)

    A shallow embedding of the Huobi websocket quoter: the tick handler
    [onData], the frame handler [onRawData], the bootstrap
    ([fetchLatestTrades], [initialize]), the KRW synthesizer
    [automadeTrades] and the liveness check [update], with the properties
    of the adapter stated over them. *)

From Stdlib Require Import ZArith QArith List String Ascii Lia Sorted Permutation.
From stdpp Require Import gmap strings list.

Local Open Scope Z_scope.
Local Open Scope string_scope.

(** ** The decimal library

    [num] of [lib/num] (not under [src/]) makes an arbitrary-precision
    decimal of a raw number, and the provider divides decimals with
    [dividedBy].  Both are parameters of the development. *)

Class DecimalLib := {
  Decimal : Type;
  num : Q -> Decimal;
  dividedBy : Decimal -> Decimal -> Decimal
}.

(** Exact rationals, the instance used to evaluate the model on concrete
    inputs. *)
#[export] Instance QDecimal : DecimalLib :=
  {| Decimal := Q; num := fun q => q; dividedBy := Qdiv |}.

(** ** JavaScript string operations used by the provider *)

Module JsString.

(** [dropPrefix p s] is [Some rest] when [s = p ++ rest]. *)
Fixpoint dropPrefix (p s : string) : option string :=
  match p, s with
  | EmptyString, _ => Some s
  | String _ _, EmptyString => None
  | String a p', String b s' =>
      if Ascii.eqb a b then dropPrefix p' s' else None
  end.

(** [s.indexOf(p) === 0] *)
Definition startsWith (p s : string) : bool :=
  match dropPrefix p s with Some _ => true | None => false end.

(** [s.replace(pat, rep)] with a string pattern: the first occurrence
    only. *)
Fixpoint replace (pat rep s : string) {struct s} : string :=
  match dropPrefix pat s with
  | Some rest => rep ++ rest
  | None =>
      match s with
      | EmptyString => EmptyString
      | String c r => String c (replace pat rep r)
      end
  end.

Definition upperAscii (c : ascii) : ascii :=
  let n := nat_of_ascii c in
  if ((97 <=? n)%nat && (n <=? 122)%nat)%bool
  then ascii_of_nat (n - 32) else c.

Definition lowerAscii (c : ascii) : ascii :=
  let n := nat_of_ascii c in
  if ((65 <=? n)%nat && (n <=? 90)%nat)%bool
  then ascii_of_nat (n + 32) else c.

Fixpoint mapChars (f : ascii -> ascii) (s : string) : string :=
  match s with
  | EmptyString => EmptyString
  | String c r => String (f c) (mapChars f r)
  end.

(** [toUpperCase] and [toLowerCase] on the ASCII letters of symbols and
    channel names. *)
Definition toUpperCase : string -> string := mapChars upperAscii.
Definition toLowerCase : string -> string := mapChars lowerAscii.

End JsString.

(** ** Currency symbols *)

(** [splitSlash "BASE/QUOTE" = Some ("BASE", "QUOTE")], at the first
    slash. *)
Fixpoint splitSlash (s : string) : option (string * string) :=
  match s with
  | EmptyString => None
  | String c r =>
      if Ascii.eqb c "/" then Some (EmptyString, r)
      else match splitSlash r with
           | Some (b, q) => Some (String c b, q)
           | None => None
           end
  end.

(** Modelled from the spec: [getBaseCurrency] of [lib/currency] (not
    under [src/]); a symbol is an ordered pair written BASE/QUOTE, of
    which this is the part before the slash.  A symbol without a slash is
    its own base. *)
Definition getBaseCurrency (symbol : string) : string :=
  match splitSlash symbol with
  | Some (b, _) => b
  | None => symbol
  end.

(** Modelled from the spec: [getQuoteCurrency] of [lib/currency] (not
    under [src/]), the part after the slash of BASE/QUOTE; [None] is the
    undefined of a symbol without a slash. *)
Definition getQuoteCurrency (symbol : string) : option string :=
  match splitSlash symbol with
  | Some (_, q) => Some q
  | None => None
  end.

(** The derived symbol [`${getBaseCurrency(symbol)}/KRW`]. *)
Definition convertedSymbol (symbol : string) : string :=
  getBaseCurrency symbol ++ "/KRW".

(** [getQuoteCurrency(symbol) === 'USDT'] *)
Definition quoteIsUSDT (symbol : string) : bool :=
  match getQuoteCurrency symbol with
  | Some q => String.eqb q "USDT"
  | None => false
  end.

(** ** Wire data *)

(** The [tick] of a [CandlestickStreamData]; of its fields the handler
    reads [id], [close] and [amount]. *)
Record Tick := {
  tick_id : Z;        (* UNIX epoch timestamp in second as response id *)
  tick_close : Q;     (* closing price during the interval *)
  tick_amount : Q     (* aggregated trading volume, in base currency *)
}.

(** A decoded message object.  An absent field is [None]. *)
Record StreamData := {
  ping : option Z;
  subbed : option string;
  status : option string;
  ch : option string;
  tick : option Tick
}.

(** What [JSON.parse] can hand to [onData]: [null], or a value whose
    properties can be read (a primitive or an array reads as an object
    without any of the fields above). *)
Inductive Decoded :=
| JNull
| JObject (d : StreamData).

(** A row of the REST kline response. *)
Record Candle := {
  row_id : Z;
  row_close : Q;
  row_amount : Q;     (* trading volume, in base currency *)
  row_vol : Q         (* trading value, in quote currency *)
}.

(** The body of the kline response: a falsy body, or an object with a
    [status] and a [data] that is an array ([Some]) or not ([None]). *)
Inductive Response :=
| RespEmpty
| RespObject (resp_status : option string) (resp_data : option (list Candle)).

(** The query of [fetchLatestTrades]. *)
Record KlineParams := {
  param_symbol : string;
  param_period : string;
  param_size : Z
}.

(** Exceptions of the provider and of the libraries it calls. *)
Inductive Exn :=
| ProtocolError (m : StreamData)   (* throw new Error(streamData) *)
| InvalidResponse                  (* Error('invalid response from Huobi') *)
| TypeError (what : string)        (* property read of undefined or null *)
| LibraryError (what : string).    (* thrown by pako, JSON.parse, fetch *)

(** The frames given to [ws.send]: the pong with the nonce of the ping,
    and the subscription to a channel. *)
Inductive Outgoing :=
| Pong (nonce : Z)
| Sub (channel : string).

Inductive Completion (A : Type) :=
| Normal (a : A)
| Throw (e : Exn).
Arguments Normal {A} a.
Arguments Throw {A} e.

(** The two library calls of [onRawData]: [pako.inflate(_, {to: 'string'})]
    and [JSON.parse]; either returns or throws. *)
Record Codec := {
  inflate : list Byte.byte -> Completion string;
  JSON_parse : string -> Completion Decoded
}.

(** The number of buckets requested at bootstrap. *)
Definition fetchSize : Z := 10.

(** JavaScript truthiness of the optional fields. *)
Definition truthyNumber (v : option Z) : bool :=
  match v with Some n => negb (n =? 0)%Z | None => false end.

Definition truthyString (v : option string) : bool :=
  match v with Some s => negb (String.eqb s EmptyString) | None => false end.

(** [parseFloat(row.vol) > 0] *)
Definition positiveVol (row : Candle) : bool :=
  negb (Qle_bool (row_vol row) 0).

Section Model.

Context `{DecimalLib}.

Record Trade := {
  price : Decimal;
  volume : Decimal;
  timestamp : Z
}.

#[local] Abbreviation Trades := (list Trade) (only parsing).

(** The adapter's flag [isUpdated], the shared store ([tradesMap],
    [priceMap]) and what the adapter hands to its collaborators: [sent]
    are the frames given to [ws.send], [reported] what went to
    [errorHandler], [logged] counts [logger.error], [aliveCalls] counts
    [alive()], [wsUrl] is the argument of [connect].  [synthCalls] is a
    ghost trace of the calls of [automadeTrades] with their arguments. *)
Record State := {
  tradesMap : gmap string Trades;
  priceMap : gmap string Decimal;
  isUpdated : bool;
  sent : list Outgoing;
  reported : list Exn;
  logged : nat;
  aliveCalls : nat;
  wsUrl : option string;
  synthCalls : list (string * Trades)
}.

Definition initialState : State :=
  {| tradesMap := ∅; priceMap := ∅; isUpdated := false; sent := [];
     reported := []; logged := 0; aliveCalls := 0; wsUrl := None;
     synthCalls := [] |}.

(** *** A state and exception monad *)

Definition M (A : Type) : Type := State -> Completion A * State.

Definition ret {A} (a : A) : M A := fun s => (Normal a, s).

Definition bind {A B} (c : M A) (k : A -> M B) : M B :=
  fun s =>
    match c s with
    | (Normal a, s') => k a s'
    | (Throw e, s') => (Throw e, s')
    end.

Definition throw {A} (e : Exn) : M A := fun s => (Throw e, s).

(** [try { body } catch (error) { handler(error) }] *)
Definition tryCatch {A} (body : M A) (handler : Exn -> M A) : M A :=
  fun s =>
    match body s with
    | (Normal a, s') => (Normal a, s')
    | (Throw e, s') => handler e s'
    end.

Definition modify (f : State -> State) : M unit := fun s => (Normal tt, f s).

Definition gets {A} (f : State -> A) : M A := fun s => (Normal (f s), s).

#[local] Notation "x <- c ;; k" := (bind c (fun x => k))
  (at level 100, c at next level, right associativity).
#[local] Notation "c ;;; k" := (bind c (fun _ => k))
  (at level 100, right associativity).

(** *** The collaborators *)

(** Modelled from the spec: [setTrades] of the base class
    [WebSocketQuoter] ([provider/base], not under [src/]); the shared store
    is keyed by symbol, last write wins. *)
Definition setTrades (symbol : string) (trades : Trades) : M unit :=
  modify (fun s =>
    {| tradesMap := <[symbol := trades]> (tradesMap s);
       priceMap := priceMap s; isUpdated := isUpdated s; sent := sent s;
       reported := reported s; logged := logged s;
       aliveCalls := aliveCalls s; wsUrl := wsUrl s;
       synthCalls := synthCalls s |}).

(** Modelled from the spec: [getTrades] of the base class; the window
    last written for the symbol, or undefined. *)
Definition getTrades (symbol : string) : M (option Trades) :=
  gets (fun s => tradesMap s !! symbol).

(** Modelled from the spec: [setPrice] of the base class; the latest
    price of the symbol, last write wins. *)
Definition setPrice (symbol : string) (p : Decimal) : M unit :=
  modify (fun s =>
    {| tradesMap := tradesMap s;
       priceMap := <[symbol := p]> (priceMap s);
       isUpdated := isUpdated s; sent := sent s;
       reported := reported s; logged := logged s;
       aliveCalls := aliveCalls s; wsUrl := wsUrl s;
       synthCalls := synthCalls s |}).

Definition setUpdated (b : bool) : M unit :=
  modify (fun s =>
    {| tradesMap := tradesMap s; priceMap := priceMap s;
       isUpdated := b; sent := sent s;
       reported := reported s; logged := logged s;
       aliveCalls := aliveCalls s; wsUrl := wsUrl s;
       synthCalls := synthCalls s |}).

(** Modelled from the spec: [ws.send] of the transport primitive hands
    a frame to the connection; the frames are kept in order. *)
Definition wsSend (frame : Outgoing) : M unit :=
  modify (fun s =>
    {| tradesMap := tradesMap s; priceMap := priceMap s;
       isUpdated := isUpdated s; sent := sent s ++ [frame];
       reported := reported s; logged := logged s;
       aliveCalls := aliveCalls s; wsUrl := wsUrl s;
       synthCalls := synthCalls s |}).

(** Modelled from the spec: [errorHandler] of [lib/error] is the single
    error channel; it records the error and returns. *)
Definition errorHandler (e : Exn) : M unit :=
  modify (fun s =>
    {| tradesMap := tradesMap s; priceMap := priceMap s;
       isUpdated := isUpdated s; sent := sent s;
       reported := reported s ++ [e]; logged := logged s;
       aliveCalls := aliveCalls s; wsUrl := wsUrl s;
       synthCalls := synthCalls s |}).

(** Modelled from the spec: [logger.error] of [lib/logger] writes a
    line and returns. *)
Definition loggerError : M unit :=
  modify (fun s =>
    {| tradesMap := tradesMap s; priceMap := priceMap s;
       isUpdated := isUpdated s; sent := sent s;
       reported := reported s; logged := S (logged s);
       aliveCalls := aliveCalls s; wsUrl := wsUrl s;
       synthCalls := synthCalls s |}).

(** Modelled from the spec: [alive()] of the base class notes that the
    connection delivered a frame. *)
Definition alive : M unit :=
  modify (fun s =>
    {| tradesMap := tradesMap s; priceMap := priceMap s;
       isUpdated := isUpdated s; sent := sent s;
       reported := reported s; logged := logged s;
       aliveCalls := S (aliveCalls s); wsUrl := wsUrl s;
       synthCalls := synthCalls s |}).

(** Modelled from the spec: [connect(url)] of the transport primitive
    opens the stream. *)
Definition connect (url : string) : M unit :=
  modify (fun s =>
    {| tradesMap := tradesMap s; priceMap := priceMap s;
       isUpdated := isUpdated s; sent := sent s;
       reported := reported s; logged := logged s;
       aliveCalls := aliveCalls s; wsUrl := Some url;
       synthCalls := synthCalls s |}).

Definition traceSynth (symbol : string) (trades : Trades) : M unit :=
  modify (fun s =>
    {| tradesMap := tradesMap s; priceMap := priceMap s;
       isUpdated := isUpdated s; sent := sent s;
       reported := reported s; logged := logged s;
       aliveCalls := aliveCalls s; wsUrl := wsUrl s;
       synthCalls := synthCalls s ++ [(symbol, trades)] |}).

(** The state after the ghost trace of a call. *)
Definition traced (symbol : string) (trades : Trades) (s : State) : State :=
  snd (traceSynth symbol trades s).

(** *** The provider *)

(** Modelled from the spec: the rate provider ([fiatProvider] of
    [provider], not under [src/]) answers [decimal | absent] to
    [getPriceBy('KRW/USD')]; that answer is [rate].  A decimal is an object
    of the decimal library (the provider calls [dividedBy] on prices),
    hence truthy whatever its value: [!rate] holds of the absent rate
    only.  Next to it stand the quoter's configuration [this.symbols] and
    the REST endpoint reached through [nodeFetch], which answers with a
    body or fails. *)
Record Env := {
  symbols : list string;
  rate : option Decimal;
  nodeFetch : KlineParams -> Completion Response
}.

(** The arrow function mapped over the trades by [automadeTrades]. *)
Definition convertTrade (r : Decimal) (trade : Trade) : Trade :=
  {| timestamp := timestamp trade;
     price := dividedBy (price trade) r;
     volume := volume trade |}.

(** [make base/KRW from base/USDT] *)
Definition automadeTrades (env : Env) (symbol : string) (trades : Trades)
  : M unit :=
  traceSynth symbol trades ;;;
  match rate env with
  | Some r =>
      if quoteIsUSDT symbol then
        let calculatedTrades := map (convertTrade r) trades in
        setTrades (convertedSymbol symbol) calculatedTrades ;;;
        match last calculatedTrades with
        | Some t => setPrice (convertedSymbol symbol) (price t)
        | None => throw (TypeError "price")
        end
      else ret tt
  | None => ret tt
  end.

(** A stable insertion sort, for
    [sort((a, b) => a.timestamp - b.timestamp)]. *)
Fixpoint insertByTimestamp (t : Trade) (l : Trades) : Trades :=
  match l with
  | [] => [t]
  | x :: r =>
      if (timestamp t <=? timestamp x)%Z then t :: l
      else x :: insertByTimestamp t r
  end.

Definition sortByTimestamp (l : Trades) : Trades :=
  foldr insertByTimestamp [] l.

(** The arrow function mapped over the rows by [fetchLatestTrades]. *)
Definition tradeOfCandle (row : Candle) : Trade :=
  {| price := num (row_close row);
     volume := num (row_amount row);
     timestamp := row_id row * 1000 |}.

(** [params] of [fetchLatestTrades]. *)
Definition klineParams (symbol : string) : KlineParams :=
  {| param_symbol :=
       JsString.toLowerCase (JsString.replace "/" EmptyString symbol);
     param_period := "1min";
     param_size := fetchSize |}.

(** [Get candles from Huobi]: a failed request is rethrown; a falsy
    body, a status other than ok, a [data] that is no array or is empty
    are logged and thrown as an invalid response; otherwise the rows of
    positive [vol] become trades, sorted by timestamp. *)
Definition fetchLatestTrades (env : Env) (symbol : string) : M Trades :=
  match nodeFetch env (klineParams symbol) with
  | Throw e => throw e
  | Normal (RespObject (Some st) (Some (row :: rows))) =>
      if String.eqb st "ok" then
        ret (sortByTimestamp
               (map tradeOfCandle
                    (List.filter positiveVol (row :: rows))))
      else loggerError ;;; throw InvalidResponse
  | Normal _ => loggerError ;;; throw InvalidResponse
  end.

(** The body of the loop of [initialize], for one symbol: the window is
    reset, and the [then] callback runs on the fetched trades unless they
    are empty; what the fetch or the callback throws goes to
    [errorHandler]. *)
Definition initializeSymbol (env : Env) (symbol : string) : M unit :=
  setTrades symbol [] ;;;
  tryCatch
    (trades <- fetchLatestTrades env symbol ;;
     match last trades with
     | None => ret tt
     | Some t =>
         setTrades symbol trades ;;;
         setPrice symbol (price t) ;;;
         automadeTrades env symbol trades
     end)
    errorHandler.

Fixpoint forEach {A} (f : A -> M unit) (l : list A) : M unit :=
  match l with
  | [] => ret tt
  | x :: r => f x ;;; forEach f r
  end.

(** [initialize], after the base class's own [initialize]. *)
Definition initialize (env : Env) : M unit :=
  forEach (initializeSymbol env) (symbols env) ;;;
  setUpdated true ;;;
  connect "wss://api.huobi.pro/ws".

(** [onConnect]: one subscription per symbol. *)
Definition onConnect (env : Env) : M unit :=
  forEach (fun symbol =>
             wsSend (Sub ("market."
                          ++ JsString.toLowerCase
                               (JsString.replace "/" EmptyString symbol)
                          ++ ".kline.1min")))
          (symbols env).

(** The outcome of a library call, in the monad. *)
Definition lift {A} (c : Completion A) : M A :=
  match c with
  | Normal a => ret a
  | Throw e => throw e
  end.

(** [ch.replace('market.', '').replace('.kline.1min', '').toUpperCase()] *)
Definition channelSymbol (c : string) : string :=
  JsString.toUpperCase
    (JsString.replace ".kline.1min" EmptyString
       (JsString.replace "market." EmptyString c)).

(** [this.symbols.find((symbol) => symbol.replace('/', '') === ch)] *)
Definition findSymbol (env : Env) (c : string) : option string :=
  find (fun symbol =>
          String.eqb (JsString.replace "/" EmptyString symbol)
                     (channelSymbol c))
       (symbols env).

(** [streamData.ch?.indexOf('market.') === 0] *)
Definition isMarket (d : StreamData) : bool :=
  match ch d with
  | Some c => JsString.startsWith "market." c
  | None => false
  end.

(** [(trade) => trade.timestamp === timestamp] *)
Definition hasTimestamp (ts : Z) (trade : Trade) : bool :=
  (timestamp trade =? ts)%Z.

(** The assignment to [currentTrade], the first trade of the window with
    the timestamp. *)
Fixpoint updateTrade (ts : Z) (p v : Decimal) (trades : Trades) : Trades :=
  match trades with
  | [] => []
  | t :: r =>
      if hasTimestamp ts t
      then {| price := p; volume := v; timestamp := timestamp t |} :: r
      else t :: updateTrade ts p v r
  end.

(** [make 1m candle stick]: merge the tick into the window. *)
Definition mergeTick (ts : Z) (p v : Decimal) (trades : Trades) : Trades :=
  match find (hasTimestamp ts) trades with
  | Some _ => updateTrade ts p v trades
  | None =>
      (trades ++ [{| price := p; volume := v; timestamp := ts |}])%list
  end.

(** [onData]: the pong to a ping, the check of a subscription answer,
    the merge of a kline tick of a configured symbol, and the throw for
    anything else. *)
Definition onData (env : Env) (streamData : Decoded) : M unit :=
  match streamData with
  | JNull => throw (TypeError "ping")
  | JObject d =>
      if truthyNumber (ping d) then
        wsSend (Pong (default 0 (ping d)))
      else if truthyString (subbed d) then
        match status d with
        | Some st =>
            if String.eqb st "ok" then ret tt else throw (ProtocolError d)
        | None => throw (ProtocolError d)
        end
      else if isMarket d then
        match findSymbol env (default EmptyString (ch d)) with
        | None => ret tt
        | Some symbol =>
            if String.eqb symbol EmptyString then ret tt
            else
              match tick d with
              | None => throw (TypeError "id")
              | Some tk =>
                  let ts := tick_id tk * 1000 in
                  let p := num (tick_close tk) in
                  let v := num (tick_amount tk) in
                  stored <- getTrades symbol ;;
                  let trades := mergeTick ts p v (default [] stored) in
                  setTrades symbol trades ;;;
                  setPrice symbol p ;;;
                  automadeTrades env symbol trades ;;;
                  setUpdated true
              end
        end
      else throw (ProtocolError d)
  end.

(** The symbol and the tick for which [onData] reaches the merge: the
    message is no ping and no subscription answer, its channel starts with
    the market prefix and names a configured symbol, and it has a tick. *)
Definition tickTarget (env : Env) (d : StreamData) : option (string * Tick) :=
  if truthyNumber (ping d) then None
  else if truthyString (subbed d) then None
  else if isMarket d then
    match findSymbol env (default EmptyString (ch d)) with
    | None => None
    | Some symbol =>
        if String.eqb symbol EmptyString then None
        else match tick d with
             | None => None
             | Some tk => Some (symbol, tk)
             end
    end
  else None.

(** The three kinds of message [onData] knows. *)
Definition isPing (m : Decoded) : bool :=
  match m with JNull => false | JObject d => truthyNumber (ping d) end.

Definition isSubscriptionAck (m : Decoded) : bool :=
  match m with JNull => false | JObject d => truthyString (subbed d) end.

Definition isMarketData (m : Decoded) : bool :=
  match m with JNull => false | JObject d => isMarket d end.

(** [onRawData]: [inflate] runs before the [try]; [JSON.parse] and
    [onData] run inside it. *)
Definition onRawData (codec : Codec) (env : Env) (gzipedData : list Byte.byte)
  : M unit :=
  unzipedText <- lift (inflate codec gzipedData) ;;
  tryCatch
    (m <- lift (JSON_parse codec unzipedText) ;; onData env m)
    errorHandler ;;;
  alive.

(** The liveness check. *)
Definition update : M bool :=
  b <- gets isUpdated ;;
  if b then setUpdated false ;;; ret true else ret false.

(** [n] consecutive liveness checks, with their answers. *)
Fixpoint polls (n : nat) (s : State) : list (Completion bool) * State :=
  match n with
  | O => ([], s)
  | S k =>
      let '(r, s') := update s in
      let '(rs, s'') := polls k s' in
      (r :: rs, s'')
  end.

(** The events of an adapter's life: its start and the decoded messages
    of the stream, in arrival order. An exception of [onData] ends the
    handling of that message only. *)
Inductive Event :=
| EvInitialize
| EvData (m : Decoded).

Definition handle (env : Env) (ev : Event) (s : State) : State :=
  match ev with
  | EvInitialize => snd (initialize env s)
  | EvData m => snd (onData env m s)
  end.

Definition run (env : Env) (evs : list Event) (s : State) : State :=
  fold_left (fun st ev => handle env ev st) evs s.

(** The two halves of the window invariant of the data model: timestamps
    in non-decreasing order, and no timestamp twice. *)
Definition ascending (w : Trades) : Prop :=
  StronglySorted Z.le (map timestamp w).

Definition distinct (w : Trades) : Prop :=
  List.NoDup (map timestamp w).

(** Every traced call of the synthesizer was given at least one trade. *)
Definition synthCallsNonEmpty (s : State) : Prop :=
  Forall (fun call : string * Trades => snd call <> []) (synthCalls s).

(** The window of a symbol as a reader of the store sees it. *)
Definition window (s : State) (symbol : string) : Trades :=
  default [] (tradesMap s !! symbol).

(** *** The symbols the quoter answers for *)

(** The arrow function of [getSymbols] and [getAutomadeSymbols]: the
    derived symbol of a symbol quoted in USDT, undefined otherwise. *)
Definition automadeSymbol (symbol : string) : option string :=
  if quoteIsUSDT symbol then Some (convertedSymbol symbol) else None.

(** [.filter((symbol) => symbol)]: the truthy entries, that is the
    defined and non-empty strings. *)
Fixpoint truthyStrings (l : list (option string)) : list string :=
  match l with
  | [] => []
  | Some s :: r =>
      if truthyString (Some s) then s :: truthyStrings r
      else truthyStrings r
  | None :: r => truthyStrings r
  end.

Definition getAutomadeSymbols (env : Env) : list string :=
  truthyStrings (map automadeSymbol (symbols env)).

(** [concat(this.symbols, ...)] *)
Definition getSymbols (env : Env) : list string :=
  (symbols env ++ truthyStrings (map automadeSymbol (symbols env)))%list.

(** [symbol.replace('/', '')] *)
Definition stripSlash (symbol : string) : string :=
  JsString.replace "/" EmptyString symbol.

(** The channel that [onConnect] subscribes to for a symbol. *)
Definition subscriptionChannel (symbol : string) : string :=
  "market." ++ JsString.toLowerCase (stripSlash symbol) ++ ".kline.1min".

(** Upper-case letters and digits, the characters of the symbols as they
    are configured (BTC/USDT), and the lower-case letters. *)
Definition isUpperAlnum (c : ascii) : bool :=
  let n := nat_of_ascii c in
  (((65 <=? n)%nat && (n <=? 90)%nat)
   || ((48 <=? n)%nat && (n <=? 57)%nat))%bool.

Definition isLowerLetter (c : ascii) : bool :=
  let n := nat_of_ascii c in ((97 <=? n)%nat && (n <=? 122)%nat)%bool.

Fixpoint allChars (f : ascii -> bool) (s : string) : bool :=
  match s with
  | EmptyString => true
  | String c r => (f c && allChars f r)%bool
  end.

(** What the bootstrap of a symbol hands to [errorHandler]: the failure of
    the request, or the invalid response; nothing for a valid answer. *)
Definition fetchError (env : Env) (symbol : string) : option Exn :=
  match nodeFetch env (klineParams symbol) with
  | Throw e => Some e
  | Normal (RespObject (Some st) (Some (_ :: _))) =>
      if String.eqb st "ok" then None else Some InvalidResponse
  | Normal _ => Some InvalidResponse
  end.

(** The symbol and tick of a decoded message that [onData] merges, if it
    merges one. *)
Definition tickOf (env : Env) (m : Decoded) : option (string * Tick) :=
  match m with
  | JNull => None
  | JObject d => tickTarget env d
  end.

(** The frames [onData] sends for a message: the pong of a ping. *)
Definition pongOf (m : Decoded) : list Outgoing :=
  match m with
  | JNull => []
  | JObject d =>
      if truthyNumber (ping d) then [Pong (default 0 (ping d))] else []
  end.

End Model.

Abbreviation Trades := (list Trade) (only parsing).

(** ** Concrete inputs

    The decimal library is instantiated with exact rationals. *)

Definition btcChannel : string := "market.btcusdt.kline.1min".

(** A kline message of the stream. *)
Definition tickData (c : string) (i : Z) (cl am : Q) : StreamData :=
  {| ping := None; subbed := None; status := None; ch := Some c;
     tick := Some {| tick_id := i; tick_close := cl; tick_amount := am |} |}.

Definition tickMessage (c : string) (i : Z) (cl am : Q) : Decoded :=
  JObject (tickData c i cl am).

(** A message of none of the known kinds: an object with an [id] only. *)
Definition unknownData : StreamData :=
  {| ping := None; subbed := None; status := None; ch := None;
     tick := None |}.

Definition candle (i : Z) (cl am vl : Q) : Candle :=
  {| row_id := i; row_close := cl; row_amount := am; row_vol := vl |}.

(** A REST endpoint that answers every query with [rows], status ok. *)
Definition respondWith (rows : list Candle) : KlineParams -> Completion Response :=
  fun _ => Normal (RespObject (Some "ok") (Some rows)).

(** One symbol, a KRW/USD rate of 1300, and the unordered bootstrap
    answer [{id:100, close:10, vol:5}, {id:90, close:9, vol:3}]. *)
Definition btcEnv : @Env QDecimal :=
  {| symbols := ["BTC/USDT"];
     rate := Some (1300 # 1)%Q;
     nodeFetch := respondWith [candle 100 10 1 5; candle 90 9 1 3] |}.

(** The same adapter while the fiat provider has no KRW/USD price. *)
Definition noRateEnv : @Env QDecimal :=
  {| symbols := ["BTC/USDT"];
     rate := None;
     nodeFetch := respondWith [candle 100 10 1 5; candle 90 9 1 3] |}.

(** The same adapter while the fiat provider holds the decimal zero. *)
Definition zeroRateEnv : @Env QDecimal :=
  {| symbols := ["BTC/USDT"];
     rate := Some 0%Q;
     nodeFetch := respondWith [candle 100 10 1 5; candle 90 9 1 3] |}.

(** A bootstrap answer of ten candles, ids 1 to 10. *)
Definition tenCandles : list Candle :=
  map (fun i => candle (Z.of_nat i) 10 1 5) (seq 1 10).

Definition tenEnv : @Env QDecimal :=
  {| symbols := ["BTC/USDT"];
     rate := Some (1300 # 1)%Q;
     nodeFetch := respondWith tenCandles |}.

(** A bootstrap answer with a minute without trades between two others:
    the candle of id 95 has no volume. *)
Definition gapEnv : @Env QDecimal :=
  {| symbols := ["BTC/USDT"];
     rate := Some (1300 # 1)%Q;
     nodeFetch :=
       respondWith [candle 100 10 1 5; candle 95 9 0 0; candle 90 9 1 3] |}.

(** A bootstrap answer that repeats a candle id. *)
Definition repeatedIdEnv : @Env QDecimal :=
  {| symbols := ["BTC/USDT"];
     rate := Some (1300 # 1)%Q;
     nodeFetch := respondWith [candle 100 10 1 5; candle 100 11 2 7] |}.

(** A bootstrap answer whose only candle carries a negative [vol]. *)
Definition negativeVolEnv : @Env QDecimal :=
  {| symbols := ["BTC/USDT"];
     rate := Some (1300 # 1)%Q;
     nodeFetch := respondWith [candle 100 10 1 (-1)] |}.

Definition btcTrade : @Trade QDecimal :=
  {| price := (50000 # 1)%Q; volume := 2%Q; timestamp := 60000 |}.

(** A codec whose [inflate] rejects every frame, as pako does on the
    bytes of the text hello, and one whose [JSON.parse] rejects every
    text. *)
Definition rejectingInflate : Codec :=
  {| inflate := fun _ => Throw (LibraryError "incorrect header check");
     JSON_parse := fun _ => Throw (LibraryError "SyntaxError") |}.

Definition rejectingParse : Codec :=
  {| inflate := fun _ => Normal "not json";
     JSON_parse := fun _ => Throw (LibraryError "SyntaxError") |}.

Definition helloFrame : list Byte.byte :=
  [Byte.x68; Byte.x65; Byte.x6c; Byte.x6c; Byte.x6f].

(** Three symbols: one quoted in USDT with a valid bootstrap answer, one
    whose request fails, one quoted in KRW whose answer has a status other
    than ok. *)
Definition mixedEnv : @Env QDecimal :=
  {| symbols := ["BTC/USDT"; "ETH/USDT"; "LUNA/KRW"];
     rate := Some (1300 # 1)%Q;
     nodeFetch := fun params =>
       if String.eqb (param_symbol params) "btcusdt"
       then Normal (RespObject (Some "ok")
                      (Some [candle 100 10 1 5; candle 90 9 1 3]))
       else if String.eqb (param_symbol params) "ethusdt"
       then Throw (LibraryError "ECONNRESET")
       else Normal (RespObject (Some "error") None) |}.

(** A ping, an accepted and a rejected subscription answer, and a kline
    message of a channel that no configured symbol matches. *)
Definition pingData : StreamData :=
  {| ping := Some 1492420473027; subbed := None; status := None;
     ch := None; tick := None |}.

Definition subbedData (st : string) : StreamData :=
  {| ping := None; subbed := Some btcChannel; status := Some st;
     ch := None; tick := None |}.

(** The adapter of [btcEnv] once the fiat provider's rate has moved to
    1301. *)
Definition laterRateEnv : @Env QDecimal :=
  {| symbols := ["BTC/USDT"];
     rate := Some (1301 # 1)%Q;
     nodeFetch := respondWith [candle 100 10 1 5; candle 90 9 1 3] |}.

(** A codec for a frame that holds the text of an empty object. *)
Definition emptyObjectCodec : Codec :=
  {| inflate := fun _ => Normal "{}";
     JSON_parse := fun _ => Normal (JObject unknownData) |}.

(** A channel of a symbol that is not configured. *)
Definition dogeChannel : string := "market.dogeusdt.kline.1min".

(** ** Properties *)

Section Properties.

Context `{DecimalLib}.

(** *** Symbols *)

Lemma splitSlash_join (s b q : string) :
  splitSlash s = Some (b, q) -> s = b ++ "/" ++ q.
Proof.
  revert b q. induction s as [|c r IH]; intros b q; simpl; [discriminate|].
  destruct (Ascii.eqb c "/") eqn:Ec.
  - apply Ascii.eqb_eq in Ec. intros [= <- <-]. now subst c.
  - destruct (splitSlash r) as [[b' q']|]; [|discriminate].
    intros [= <- <-].
    change (String c r = String c (b' ++ "/" ++ q')).
    f_equal. now apply IH.
Qed.

Lemma append_cancel_l (b x y : string) : b ++ x = b ++ y -> x = y.
Proof.
  induction b as [|c b IH]; intros E; [exact E|].
  apply IH. change (String c (b ++ x) = String c (b ++ y)) in E.
  now injection E.
Qed.

(** The derived symbol of a USDT symbol is another key of the store. *)
Lemma convertedSymbol_ne (symbol : string) :
  quoteIsUSDT symbol = true -> convertedSymbol symbol <> symbol.
Proof.
  unfold quoteIsUSDT, getQuoteCurrency, convertedSymbol, getBaseCurrency.
  destruct (splitSlash symbol) as [[b q]|] eqn:E; [|discriminate].
  intros Hq. apply String.eqb_eq in Hq. subst q.
  apply splitSlash_join in E. intros Heq.
  rewrite E in Heq. apply append_cancel_l in Heq. discriminate.
Qed.

(** *** Lists of trades *)

Lemma last_map_convert (r : Decimal) (trades : Trades) :
  last (map (convertTrade r) trades) = option_map (convertTrade r) (last trades).
Proof.
  induction trades as [|t [|u l] IH]; try reflexivity.
  change (last (map (convertTrade r) (u :: l))
          = option_map (convertTrade r) (last (u :: l))).
  exact IH.
Qed.

Lemma last_is_Some {A} (l : list A) : l <> [] -> exists x, last l = Some x.
Proof.
  induction l as [|a [|b l] IH]; intros Hne; [easy| now exists a |].
  destruct IH as [x Hx]; [easy|]. now exists x.
Qed.

(** *** The synthesizer, step by step *)

Lemma automadeTrades_skip (env : Env) (symbol : string) (trades : Trades)
      (s : State) :
  rate env = None \/ quoteIsUSDT symbol = false ->
  automadeTrades env symbol trades s = (Normal tt, traced symbol trades s).
Proof.
  intros Hskip. unfold automadeTrades, bind, traced.
  destruct (rate env) as [r|]; [|reflexivity].
  destruct Hskip as [Hr|Hq]; [discriminate|]. now rewrite Hq.
Qed.

Lemma automadeTrades_write (env : Env) (r : Decimal) (symbol : string)
      (trades : Trades) (t : Trade) (s : State) :
  rate env = Some r -> quoteIsUSDT symbol = true -> last trades = Some t ->
  automadeTrades env symbol trades s =
    (Normal tt,
     snd (setPrice (convertedSymbol symbol) (dividedBy (price t) r)
            (snd (setTrades (convertedSymbol symbol)
                    (map (convertTrade r) trades)
                    (traced symbol trades s))))).
Proof.
  intros Hr Hq Hl. unfold automadeTrades, bind, traced.
  rewrite Hr, Hq. cbn [traceSynth modify snd setTrades].
  rewrite last_map_convert, Hl. reflexivity.
Qed.

Lemma map_is_fmap {A B} (f : A -> B) (l : list A) : map f l = f <$> l.
Proof. reflexivity. Qed.

(** C2.  With a KRW/USD rate [r] at hand and a symbol quoted in USDT, the
    synthesizer writes under the key made of the symbol's base currency
    and /KRW, which is another key than the symbol's own, and under no
    other key.  It stores there, whatever was stored there before, a
    list as long as the source list whose trade at every position has the
    source trade's price divided by [r] and its volume and timestamp; and
    the latest price of base/KRW becomes the price of the last derived
    trade. *)
Theorem automadeTrades_derives (env : Env) (r : Decimal) (symbol : string)
        (trades : Trades) (s : State) :
  rate env = Some r ->
  quoteIsUSDT symbol = true ->
  getBaseCurrency symbol ++ "/KRW" <> symbol /\
  (forall k : string,
      k <> getBaseCurrency symbol ++ "/KRW" ->
      tradesMap (snd (automadeTrades env symbol trades s)) !! k
        = tradesMap s !! k /\
      priceMap (snd (automadeTrades env symbol trades s)) !! k
        = priceMap s !! k) /\
  exists derived : Trades,
    tradesMap (snd (automadeTrades env symbol trades s))
      !! (getBaseCurrency symbol ++ "/KRW") = Some derived /\
    length derived = length trades /\
    (forall (i : nat) (t : Trade),
        trades !! i = Some t ->
        exists d : Trade,
          derived !! i = Some d /\
          price d = dividedBy (price t) r /\
          volume d = volume t /\
          timestamp d = timestamp t) /\
    (forall d : Trade,
        last derived = Some d ->
        fst (automadeTrades env symbol trades s) = Normal tt /\
        priceMap (snd (automadeTrades env symbol trades s))
          !! (getBaseCurrency symbol ++ "/KRW") = Some (price d)).
Proof.
  intros Hr Hq.
  change (getBaseCurrency symbol ++ "/KRW") with (convertedSymbol symbol).
  split; [now apply convertedSymbol_ne|].
  assert (Hlookup : forall i t, trades !! i = Some t ->
            map (convertTrade r) trades !! i = Some (convertTrade r t)).
  { intros i t Hi. rewrite map_is_fmap, list_lookup_fmap, Hi. reflexivity. }
  destruct (last trades) as [t|] eqn:Hl.
  - rewrite (automadeTrades_write env r symbol trades t s Hr Hq Hl).
    cbn [fst snd setPrice setTrades modify tradesMap priceMap traced
         traceSynth].
    split.
    { intros k Hk. now rewrite !lookup_insert_ne by congruence. }
    exists (map (convertTrade r) trades). repeat split.
    + apply lookup_insert_eq.
    + apply length_map.
    + intros i u Hi. exists (convertTrade r u). now rewrite (Hlookup i u Hi).
    + rewrite last_map_convert, Hl in H0. injection H0 as <-.
      apply lookup_insert_eq.
  - assert (trades = []) as -> by (now apply last_None).
    unfold automadeTrades, bind. rewrite Hr, Hq.
    cbn [traceSynth modify snd fst map setTrades last tradesMap priceMap
         throw].
    split.
    { intros k Hk. now rewrite lookup_insert_ne by congruence. }
    exists []. repeat split; try discriminate.
    apply lookup_insert_eq.
Qed.

(** C3, as amended.  When the fiat provider has no KRW/USD rate, or the
    symbol is not quoted in USDT, the synthesizer returns without writing:
    every window and every latest price of the store is what it was, and
    nothing is sent or reported. *)
Theorem automadeTrades_skips (env : Env) (symbol : string) (trades : Trades)
        (s : State) :
  rate env = None \/ quoteIsUSDT symbol = false ->
  fst (automadeTrades env symbol trades s) = Normal tt /\
  tradesMap (snd (automadeTrades env symbol trades s)) = tradesMap s /\
  priceMap (snd (automadeTrades env symbol trades s)) = priceMap s /\
  isUpdated (snd (automadeTrades env symbol trades s)) = isUpdated s /\
  sent (snd (automadeTrades env symbol trades s)) = sent s /\
  reported (snd (automadeTrades env symbol trades s)) = reported s.
Proof.
  intros Hskip. rewrite (automadeTrades_skip env symbol trades s Hskip).
  repeat split.
Qed.

(** *** The liveness check *)

(** The state with its flag cleared. *)
Lemma update_eq (s : State) :
  update s = (Normal (isUpdated s), snd (setUpdated false s)).
Proof.
  unfold update, bind, gets. destruct (isUpdated s) eqn:Hb; cbn.
  - reflexivity.
  - destruct s; cbn in *. now subst.
Qed.

Lemma polls_after_clear (n : nat) (s : State) :
  isUpdated s = false ->
  fst (polls n s) = repeat (Normal false) n /\ isUpdated (snd (polls n s)) = false.
Proof.
  revert s. induction n as [|n IH]; intros s Hs; [easy|].
  cbn [polls]. rewrite update_eq, Hs.
  destruct (polls n (snd (setUpdated false s))) as [rs s''] eqn:Hp.
  destruct (IH (snd (setUpdated false s)) eq_refl) as [Hrs Hflag].
  rewrite Hp in Hrs, Hflag. cbn in *. now subst rs.
Qed.

(** *** The tick handler, step by step *)

Lemma mergeTick_last (ts : Z) (p v : Decimal) (trades : Trades) :
  exists t, last (mergeTick ts p v trades) = Some t.
Proof.
  apply last_is_Some. unfold mergeTick.
  destruct (find (hasTimestamp ts) trades) as [t|] eqn:Hf.
  - destruct trades as [|x l]; [discriminate|].
    cbn [updateTrade]. now destruct (hasTimestamp ts x).
  - now destruct trades.
Qed.

Lemma automadeTrades_effect (env : Env) (symbol : string) (trades : Trades)
      (t : Trade) (s : State) :
  last trades = Some t ->
  fst (automadeTrades env symbol trades s) = Normal tt /\
  tradesMap (snd (automadeTrades env symbol trades s)) !! symbol
    = tradesMap s !! symbol /\
  priceMap (snd (automadeTrades env symbol trades s)) !! symbol
    = priceMap s !! symbol /\
  isUpdated (snd (automadeTrades env symbol trades s)) = isUpdated s /\
  sent (snd (automadeTrades env symbol trades s)) = sent s /\
  reported (snd (automadeTrades env symbol trades s)) = reported s /\
  synthCalls (snd (automadeTrades env symbol trades s))
    = (synthCalls s ++ [(symbol, trades)])%list.
Proof.
  intros Hl.
  destruct (rate env) as [r|] eqn:Hr;
    [destruct (quoteIsUSDT symbol) eqn:Hq|].
  - rewrite (automadeTrades_write env r symbol trades t s Hr Hq Hl).
    cbn [fst snd setPrice setTrades modify tradesMap priceMap isUpdated
         sent reported synthCalls traced traceSynth].
    pose proof (convertedSymbol_ne symbol Hq) as Hne.
    repeat split; now apply lookup_insert_ne.
  - rewrite (automadeTrades_skip env symbol trades s (or_intror Hq)).
    repeat split.
  - rewrite (automadeTrades_skip env symbol trades s (or_introl Hr)).
    repeat split.
Qed.

(** The tick branch of [onData], with the store operations run. *)
Lemma onData_tick_eq (env : Env) (d : StreamData) (symbol : string)
      (tk : Tick) (s : State) :
  tickTarget env d = Some (symbol, tk) ->
  onData env (JObject d) s =
    match automadeTrades env symbol
            (mergeTick (tick_id tk * 1000) (num (tick_close tk))
                       (num (tick_amount tk)) (window s symbol))
            (snd (setPrice symbol (num (tick_close tk))
                    (snd (setTrades symbol
                            (mergeTick (tick_id tk * 1000)
                                       (num (tick_close tk))
                                       (num (tick_amount tk))
                                       (window s symbol)) s))))
    with
    | (Normal _, s1) => setUpdated true s1
    | (Throw e, s1) => (Throw e, s1)
    end.
Proof.
  unfold tickTarget, onData.
  destruct (truthyNumber (ping d)); [discriminate|].
  destruct (truthyString (subbed d)); [discriminate|].
  destruct (isMarket d); [|discriminate].
  destruct (findSymbol env (default EmptyString (ch d))) as [sym|];
    [|discriminate].
  destruct (String.eqb sym EmptyString); [discriminate|].
  destruct (tick d) as [tk'|]; [|discriminate].
  intros [= -> ->]. reflexivity.
Qed.

(** What an accepted tick does to the adapter. *)
Lemma onData_tick (env : Env) (d : StreamData) (symbol : string) (tk : Tick)
      (s : State) :
  tickTarget env d = Some (symbol, tk) ->
  fst (onData env (JObject d) s) = Normal tt /\
  window (snd (onData env (JObject d) s)) symbol
    = mergeTick (tick_id tk * 1000) (num (tick_close tk))
                (num (tick_amount tk)) (window s symbol) /\
  priceMap (snd (onData env (JObject d) s)) !! symbol
    = Some (num (tick_close tk)) /\
  isUpdated (snd (onData env (JObject d) s)) = true /\
  sent (snd (onData env (JObject d) s)) = sent s /\
  reported (snd (onData env (JObject d) s)) = reported s /\
  synthCalls (snd (onData env (JObject d) s))
    = (synthCalls s
       ++ [(symbol,
            mergeTick (tick_id tk * 1000) (num (tick_close tk))
                      (num (tick_amount tk)) (window s symbol))])%list.
Proof.
  intros Ht. rewrite (onData_tick_eq env d symbol tk s Ht).
  set (trades := mergeTick (tick_id tk * 1000) (num (tick_close tk))
                           (num (tick_amount tk)) (window s symbol)).
  destruct (mergeTick_last (tick_id tk * 1000) (num (tick_close tk))
              (num (tick_amount tk)) (window s symbol)) as [t Hl].
  fold trades in Hl.
  set (s0 := snd (setPrice symbol (num (tick_close tk))
                    (snd (setTrades symbol trades s)))).
  destruct (automadeTrades_effect env symbol trades t s0 Hl)
    as (Hn & Hw & Hp & Hu & Hs & Hr & Hc).
  destruct (automadeTrades env symbol trades s0) as [res s1].
  cbn [fst snd] in *. subst res.
  unfold window.
  cbn [setUpdated modify fst snd tradesMap priceMap isUpdated sent reported
       synthCalls].
  rewrite Hw, Hp, Hs, Hr, Hc. unfold s0.
  cbn [setPrice setTrades modify fst snd tradesMap priceMap isUpdated sent
       reported synthCalls].
  rewrite !lookup_insert_eq. repeat split.
Qed.

(** *** Merging a tick into a window *)

Lemma find_hasTimestamp_None (ts : Z) (w : Trades) :
  find (hasTimestamp ts) w = None <-> ~ In ts (map timestamp w).
Proof.
  induction w as [|x l IH]; cbn [find map In]; [easy|].
  unfold hasTimestamp at 1.
  destruct (Z.eqb_spec (timestamp x) ts) as [He|Hne].
  - split; [discriminate|]. intros Hn. exfalso. apply Hn. now left.
  - rewrite IH. tauto.
Qed.

Lemma find_hasTimestamp_Some (ts : Z) (w : Trades) :
  In ts (map timestamp w) -> exists t, find (hasTimestamp ts) w = Some t.
Proof.
  intros Hin. destruct (find (hasTimestamp ts) w) as [t|] eqn:Hf.
  - now exists t.
  - apply find_hasTimestamp_None in Hf. contradiction.
Qed.

Lemma updateTrade_split (ts : Z) (p v : Decimal) (w : Trades) (t : Trade) :
  find (hasTimestamp ts) w = Some t ->
  exists l1 x l2,
    w = (l1 ++ x :: l2)%list /\
    ~ In ts (map timestamp l1) /\
    timestamp x = ts /\
    updateTrade ts p v w
      = (l1 ++ {| price := p; volume := v; timestamp := ts |} :: l2)%list.
Proof.
  revert t. induction w as [|y l IH]; intros t; cbn [find updateTrade];
    [discriminate|].
  destruct (hasTimestamp ts y) eqn:Hh; unfold hasTimestamp in Hh.
  - apply Z.eqb_eq in Hh. intros _. exists [], y, l. rewrite Hh.
    cbn [app map In]. intuition.
  - apply Z.eqb_neq in Hh. intros Hf. destruct (IH t Hf) as (l1 & x & l2 & Hw & Hn & Hx & Hu).
    exists (y :: l1), x, l2. cbn [app map In]. rewrite Hu, <- Hw.
    repeat split; trivial. intros [Hy|Hin]; [congruence|contradiction].
Qed.

Lemma filter_hasTimestamp_nil (ts : Z) (w : Trades) :
  find (hasTimestamp ts) w = None -> List.filter (hasTimestamp ts) w = [].
Proof.
  induction w as [|x l IH]; cbn [find List.filter]; [easy|].
  destruct (hasTimestamp ts x); [discriminate|exact IH].
Qed.

Lemma hasTimestamp_new (ts : Z) (p v : Decimal) :
  hasTimestamp ts {| price := p; volume := v; timestamp := ts |} = true.
Proof. unfold hasTimestamp. cbn [timestamp]. apply Z.eqb_refl. Qed.

(** After the merge the first trade of the timestamp is the tick's, and
    the later ones, if any, are those of the window. *)
Lemma mergeTick_filter (ts : Z) (p v : Decimal) (w : Trades) :
  List.filter (hasTimestamp ts) (mergeTick ts p v w)
  = {| price := p; volume := v; timestamp := ts |}
      :: tl (List.filter (hasTimestamp ts) w).
Proof.
  unfold mergeTick. destruct (find (hasTimestamp ts) w) as [t|] eqn:Hf.
  - destruct (updateTrade_split ts p v w t Hf)
      as (l1 & x & l2 & Hw & Hn & Hx & Hu).
    rewrite Hu, Hw, !List.filter_app.
    assert (Hl1 : List.filter (hasTimestamp ts) l1 = []).
    { apply filter_hasTimestamp_nil. now apply find_hasTimestamp_None. }
    assert (Hx' : hasTimestamp ts x = true)
      by (unfold hasTimestamp; now apply Z.eqb_eq).
    rewrite Hl1. cbn [app List.filter].
    rewrite Hx', (hasTimestamp_new ts p v). reflexivity.
  - rewrite List.filter_app, (filter_hasTimestamp_nil ts w Hf).
    cbn [app List.filter tl]. now rewrite (hasTimestamp_new ts p v).
Qed.

Lemma mergeTick_timestamps (ts : Z) (p v : Decimal) (w : Trades) :
  (In ts (map timestamp w) ->
   map timestamp (mergeTick ts p v w) = map timestamp w) /\
  (~ In ts (map timestamp w) ->
   map timestamp (mergeTick ts p v w) = (map timestamp w ++ [ts])%list).
Proof.
  unfold mergeTick. split; intros Hin.
  - destruct (find_hasTimestamp_Some ts w Hin) as [t Hf]. rewrite Hf.
    destruct (updateTrade_split ts p v w t Hf)
      as (l1 & x & l2 & Hw & _ & Hx & Hu).
    rewrite Hu. rewrite Hw at 1. rewrite !map_app. cbn [map timestamp].
    now rewrite Hx.
  - apply find_hasTimestamp_None in Hin. rewrite Hin.
    now rewrite map_app.
Qed.

Lemma mergeTick_length (ts : Z) (p v : Decimal) (w : Trades) :
  (In ts (map timestamp w) -> length (mergeTick ts p v w) = length w) /\
  (~ In ts (map timestamp w) -> length (mergeTick ts p v w) = S (length w)).
Proof.
  destruct (mergeTick_timestamps ts p v w) as [Hin Hout].
  split; intros Hc.
  - rewrite <- (length_map timestamp), (Hin Hc). apply length_map.
  - rewrite <- (length_map timestamp), (Hout Hc), length_app, length_map.
    cbn. lia.
Qed.

(** C1, as amended.  A tick that [onData] accepts for [symbol] is merged
    into the symbol's window: when the window holds a trade of the tick's
    timestamp (its id times 1000), the first such trade takes the tick's
    price and volume and the window keeps its length; otherwise the
    tick's trade is appended.  A second tick of the same id then adds no
    entry: after it the first entry of the timestamp holds the second
    tick's price and volume, and the further entries of the timestamp are
    those the window held before the two ticks.  So a window that held
    the timestamp at most once holds it exactly once, with the second
    tick's price and volume. *)
Theorem onData_merges_tick (env env2 : Env) (d d2 : StreamData)
        (symbol : string) (tk tk2 : Tick) (s : State) :
  tickTarget env d = Some (symbol, tk) ->
  tickTarget env2 d2 = Some (symbol, tk2) ->
  tick_id tk2 = tick_id tk ->
  let ts := tick_id tk * 1000 in
  let new := {| price := num (tick_close tk);
                volume := num (tick_amount tk); timestamp := ts |} in
  let new2 := {| price := num (tick_close tk2);
                 volume := num (tick_amount tk2); timestamp := ts |} in
  let w := window s symbol in
  let s1 := snd (onData env (JObject d) s) in
  let s2 := snd (onData env2 (JObject d2) s1) in
  (In ts (map timestamp w) ->
   exists l1 x l2,
     w = (l1 ++ x :: l2)%list /\
     ~ In ts (map timestamp l1) /\
     timestamp x = ts /\
     window s1 symbol = (l1 ++ new :: l2)%list) /\
  (~ In ts (map timestamp w) -> window s1 symbol = (w ++ [new])%list) /\
  length (window s2 symbol) = length (window s1 symbol) /\
  List.filter (hasTimestamp ts) (window s2 symbol)
    = new2 :: tl (List.filter (hasTimestamp ts) w) /\
  (length (List.filter (hasTimestamp ts) w) <= 1 ->
   List.filter (hasTimestamp ts) (window s2 symbol) = [new2])%nat.
Proof.
  intros Ht Ht2 Hid ts new new2 w s1 s2.
  destruct (onData_tick env d symbol tk s Ht) as (_ & Hw1 & _).
  destruct (onData_tick env2 d2 symbol tk2 s1 Ht2) as (_ & Hw2 & _).
  fold s1 in Hw1. fold s2 in Hw2. fold w ts in Hw1. fold s1 in Hw2.
  rewrite Hid in Hw2. fold ts in Hw2.
  assert (Hin1 : In ts (map timestamp (window s1 symbol))).
  { assert (Hf := mergeTick_filter ts (num (tick_close tk))
                    (num (tick_amount tk)) w).
    rewrite <- Hw1 in Hf.
    assert (Hm : In new (List.filter (hasTimestamp ts) (window s1 symbol)))
      by (rewrite Hf; now left).
    apply List.filter_In in Hm. destruct Hm as [Hm _].
    change ts with (timestamp new). now apply in_map. }
  assert (Htwice : List.filter (hasTimestamp ts) (window s2 symbol)
                   = new2 :: tl (List.filter (hasTimestamp ts) w)).
  { rewrite Hw2, mergeTick_filter, Hw1, mergeTick_filter. reflexivity. }
  split; [|split; [|split; [|split; [exact Htwice|]]]].
  - intros Hin. destruct (find_hasTimestamp_Some ts w Hin) as [t Hf].
    destruct (updateTrade_split ts (num (tick_close tk))
                (num (tick_amount tk)) w t Hf)
      as (l1 & x & l2 & Hw & Hn & Hx & Hu).
    exists l1, x, l2. repeat split; trivial.
    rewrite Hw1. unfold mergeTick. now rewrite Hf.
  - intros Hout. rewrite Hw1. unfold mergeTick.
    apply find_hasTimestamp_None in Hout. now rewrite Hout.
  - rewrite Hw2. now apply mergeTick_length.
  - intros Hle. rewrite Htwice. f_equal.
    destruct (List.filter (hasTimestamp ts) w) as [|a [|b l]];
      cbn [tl length] in *; trivial; lia.
Qed.

(** *** The bootstrap never throws *)

Lemma initializeSymbol_normal (env : Env) (symbol : string) (s : State) :
  fst (initializeSymbol env symbol s) = Normal tt.
Proof.
  unfold initializeSymbol, bind at 1, tryCatch. cbn [setTrades modify].
  match goal with
  | |- context [bind ?c ?k ?s0] => destruct (bind c k s0) as [[[]|e] s1]
  end; reflexivity.
Qed.

Lemma forEach_normal {A} (f : A -> M unit) (l : list A) (s : State) :
  (forall x s0, fst (f x s0) = Normal tt) ->
  fst (forEach f l s) = Normal tt.
Proof.
  intros Hf. revert s. induction l as [|x l IH]; intros s; [reflexivity|].
  cbn [forEach]. unfold bind. specialize (Hf x s).
  destruct (f x s) as [[[]|e] s1]; [apply IH|discriminate].
Qed.

Lemma initialize_flag (env : Env) (s : State) :
  fst (initialize env s) = Normal tt /\
  isUpdated (snd (initialize env s)) = true.
Proof.
  unfold initialize, bind.
  pose proof (forEach_normal (initializeSymbol env) (symbols env) s
                (initializeSymbol_normal env)) as Hn.
  destruct (forEach (initializeSymbol env) (symbols env) s) as [[[]|e] s1];
    [|discriminate].
  split; reflexivity.
Qed.

Lemma polls_after_set (n : nat) (s : State) :
  isUpdated s = true ->
  fst (polls (S n) s) = Normal true :: repeat (Normal false) n.
Proof.
  intros Hs. cbn [polls]. rewrite update_eq, Hs.
  destruct (polls_after_clear n (snd (setUpdated false s)) eq_refl)
    as [Hrs _].
  destruct (polls n (snd (setUpdated false s))) as [rs s'].
  cbn [fst] in *. now subst rs.
Qed.

(** C6.  The liveness check answers with the flag and leaves it cleared.
    So once the flag is set, as it is at the end of [initialize] and after
    every accepted tick, the next check answers true and all the checks
    after it answer false, as long as nothing sets the flag again. *)
Theorem update_reports_once (env : Env) (s : State) (n : nat) :
  fst (update s) = Normal (isUpdated s) /\
  isUpdated (snd (update s)) = false /\
  (isUpdated s = true ->
   fst (polls (S n) s) = Normal true :: repeat (Normal false) n) /\
  fst (polls (S n) (snd (initialize env s)))
    = Normal true :: repeat (Normal false) n /\
  (forall d symbol tk,
      tickTarget env d = Some (symbol, tk) ->
      fst (polls (S n) (snd (onData env (JObject d) s)))
        = Normal true :: repeat (Normal false) n).
Proof.
  rewrite update_eq. repeat split.
  - apply polls_after_set.
  - apply polls_after_set, initialize_flag.
  - intros d symbol tk Ht. apply polls_after_set.
    now destruct (onData_tick env d symbol tk s Ht) as (_ & _ & _ & Hu & _).
Qed.

(** *** Messages and frames *)

(** C9.  A decoded message that is no ping, no subscription answer and no
    market data of the known prefix makes [onData] throw, and the adapter
    and the store are as they were: no window, no price, nothing sent,
    nothing merely reported. *)
Theorem onData_rejects_unknown (env : Env) (m : Decoded) (s : State) :
  isPing m = false ->
  isSubscriptionAck m = false ->
  isMarketData m = false ->
  onData env m s =
    (Throw match m with
           | JNull => TypeError "ping"
           | JObject d => ProtocolError d
           end, s).
Proof.
  destruct m as [|d]; cbn [isPing isSubscriptionAck isMarketData onData];
    [reflexivity|].
  now intros -> -> ->.
Qed.

(** The guarded half of [onRawData]: a text that [JSON.parse] rejects is
    reported, and the call returns after [alive()]. *)
Lemma onRawData_parse_error_reported (codec : Codec) (env : Env)
      (frame : list Byte.byte) (text : string) (e : Exn) (s : State) :
  inflate codec frame = Normal text ->
  JSON_parse codec text = Throw e ->
  onRawData codec env frame s
    = (Normal tt, snd (alive (snd (errorHandler e s)))).
Proof.
  intros Hi Hp. unfold onRawData, bind, tryCatch. rewrite Hi. cbn [lift ret].
  rewrite Hp. reflexivity.
Qed.

(** C4, on the code.  A frame that [inflate] rejects makes [onRawData]
    throw the library's exception: the call to [inflate] precedes the
    [try], so nothing is reported and [alive()] is not reached. *)
Theorem onRawData_inflate_error_escapes (codec : Codec) (env : Env)
        (frame : list Byte.byte) (e : Exn) (s : State) :
  inflate codec frame = Throw e ->
  onRawData codec env frame s = (Throw e, s).
Proof.
  intros Hi. unfold onRawData, bind. now rewrite Hi.
Qed.

(** *** Sorting by timestamp *)

Lemma insertByTimestamp_perm (t : Trade) (l : Trades) :
  Permutation (insertByTimestamp t l) (t :: l).
Proof.
  induction l as [|x r IH]; cbn [insertByTimestamp]; [reflexivity|].
  destruct (timestamp t <=? timestamp x)%Z; [reflexivity|].
  rewrite IH. apply perm_swap.
Qed.

Lemma sortByTimestamp_perm (l : Trades) : Permutation (sortByTimestamp l) l.
Proof.
  induction l as [|x r IH]; [reflexivity|].
  cbn [sortByTimestamp foldr]. fold (sortByTimestamp r).
  rewrite insertByTimestamp_perm. now constructor.
Qed.

Lemma insertByTimestamp_ascending (t : Trade) (l : Trades) :
  ascending l -> ascending (insertByTimestamp t l).
Proof.
  unfold ascending. induction l as [|x r IH]; intros Hs;
    cbn [insertByTimestamp].
  - repeat constructor.
  - change (StronglySorted Z.le (timestamp x :: map timestamp r)) in Hs.
    apply StronglySorted_inv in Hs. destruct Hs as [Hr Hx].
    destruct (Z.leb_spec (timestamp t) (timestamp x)) as [Hle|Hgt].
    + change (StronglySorted Z.le
                (timestamp t :: timestamp x :: map timestamp r)).
      constructor; [now constructor|].
      constructor; [exact Hle|].
      eapply List.Forall_impl; [|exact Hx].
      intros z Hz. cbn beta in Hz. lia.
    + change (StronglySorted Z.le
                (timestamp x :: map timestamp (insertByTimestamp t r))).
      constructor; [now apply IH|].
      eapply Permutation_Forall.
      * symmetry. apply Permutation_map, insertByTimestamp_perm.
      * change (Forall (Z.le (timestamp x))
                  (timestamp t :: map timestamp r)).
        constructor; [lia|exact Hx].
Qed.

Lemma sortByTimestamp_ascending (l : Trades) : ascending (sortByTimestamp l).
Proof.
  induction l as [|x r IH]; [constructor|].
  cbn [sortByTimestamp foldr]. now apply insertByTimestamp_ascending.
Qed.

Lemma last_In {A} (l : list A) (x : A) : last l = Some x -> In x l.
Proof.
  induction l as [|a [|b l] IH]; intros Hl.
  - discriminate.
  - injection Hl as <-. now left.
  - right. apply IH. exact Hl.
Qed.

(** The last trade of an ascending window has the largest timestamp. *)
Lemma ascending_last (w : Trades) (t : Trade) :
  ascending w -> last w = Some t ->
  forall x, In x w -> timestamp x <= timestamp t.
Proof.
  unfold ascending. induction w as [|a l IH]; intros Hs Hl x Hx;
    [discriminate|].
  change (StronglySorted Z.le (timestamp a :: map timestamp l)) in Hs.
  apply StronglySorted_inv in Hs. destruct Hs as [Hr Ha].
  destruct l as [|b l'].
  - injection Hl as <-. destruct Hx as [<-|[]]. lia.
  - change (last (b :: l') = Some t) in Hl.
    destruct Hx as [<-|Hx]; [|now apply IH].
    rewrite List.Forall_forall in Ha. apply Ha.
    apply in_map. now apply last_In.
Qed.

Lemma ascending_snoc (l : list Z) (ts : Z) :
  StronglySorted Z.le l -> Forall (fun z => z <= ts) l ->
  StronglySorted Z.le (l ++ [ts]).
Proof.
  induction l as [|a l IH]; intros Hs Hf; cbn [app].
  - repeat constructor.
  - apply StronglySorted_inv in Hs. destruct Hs as [Hl Ha].
    apply Forall_cons_iff in Hf. destruct Hf as [Hats Hf].
    constructor; [now apply IH|].
    apply Forall_app. split; [exact Ha|]. now repeat constructor.
Qed.

Lemma NoDup_map_filter {A B} (f : A -> B) (g : A -> bool) (l : list A) :
  List.NoDup (map f l) -> List.NoDup (map f (List.filter g l)).
Proof.
  induction l as [|a l IH]; cbn [map List.filter]; intros Hn; [exact Hn|].
  apply List.NoDup_cons_iff in Hn. destruct Hn as [Hnotin Hn].
  destruct (g a); cbn [map]; [|now apply IH].
  constructor; [|now apply IH].
  intros Hin. apply Hnotin. apply in_map_iff in Hin.
  destruct Hin as (x & Hfx & Hx). apply List.filter_In in Hx.
  rewrite <- Hfx. apply in_map. tauto.
Qed.

Lemma timestamps_of_candles (rows : list Candle) :
  map timestamp (map tradeOfCandle rows)
  = map (fun z => z * 1000) (map row_id rows).
Proof. rewrite !map_map. reflexivity. Qed.

Lemma bootstrap_distinct (rows : list Candle) :
  List.NoDup (map row_id rows) ->
  distinct (sortByTimestamp (map tradeOfCandle (List.filter positiveVol rows))).
Proof.
  intros Hn. unfold distinct.
  eapply Permutation_NoDup.
  - symmetry. apply Permutation_map, sortByTimestamp_perm.
  - rewrite timestamps_of_candles.
    apply Finite.Injective_map_NoDup.
    + intros a b Hab. lia.
    + now apply NoDup_map_filter.
Qed.

(** *** The bootstrap of one symbol *)

Lemma fetchLatestTrades_ok (env : Env) (symbol : string)
      (rows : list Candle) (s : State) :
  nodeFetch env (klineParams symbol)
    = Normal (RespObject (Some "ok") (Some rows)) ->
  rows <> [] ->
  fetchLatestTrades env symbol s
    = (Normal (sortByTimestamp
                 (map tradeOfCandle (List.filter positiveVol rows))), s).
Proof.
  intros Hf Hne. unfold fetchLatestTrades. rewrite Hf.
  destruct rows as [|row rows]; [contradiction|]. reflexivity.
Qed.

Lemma initializeSymbol_ok (env : Env) (symbol : string)
      (rows : list Candle) (s : State) :
  nodeFetch env (klineParams symbol)
    = Normal (RespObject (Some "ok") (Some rows)) ->
  rows <> [] ->
  initializeSymbol env symbol s =
    match last (sortByTimestamp
                  (map tradeOfCandle (List.filter positiveVol rows))) with
    | None => (Normal tt, snd (setTrades symbol [] s))
    | Some t =>
        (Normal tt,
         snd (automadeTrades env symbol
                (sortByTimestamp
                   (map tradeOfCandle (List.filter positiveVol rows)))
                (snd (setPrice symbol (price t)
                        (snd (setTrades symbol
                                (sortByTimestamp
                                   (map tradeOfCandle
                                      (List.filter positiveVol rows)))
                                (snd (setTrades symbol [] s))))))))
    end.
Proof.
  intros Hf Hne. unfold initializeSymbol, bind at 1, tryCatch, bind at 1.
  cbn [setTrades modify].
  rewrite (fetchLatestTrades_ok env symbol rows _ Hf Hne).
  set (w := sortByTimestamp _).
  destruct (last w) as [t|] eqn:Hl; [|reflexivity].
  unfold bind. cbn [setTrades setPrice modify snd].
  match goal with
  | |- context [automadeTrades env symbol w ?s0] =>
      destruct (automadeTrades_effect env symbol w t s0 Hl) as (Hn & _);
      destruct (automadeTrades env symbol w s0) as [res s1]
  end.
  cbn [fst snd] in *. now subst res.
Qed.

(** The window and latest price of the symbol after its bootstrap. *)
Lemma initializeSymbol_window (env : Env) (symbol : string)
      (rows : list Candle) (s : State) :
  nodeFetch env (klineParams symbol)
    = Normal (RespObject (Some "ok") (Some rows)) ->
  rows <> [] ->
  window (snd (initializeSymbol env symbol s)) symbol
    = sortByTimestamp (map tradeOfCandle (List.filter positiveVol rows)) /\
  priceMap (snd (initializeSymbol env symbol s)) !! symbol
    = match last (sortByTimestamp
                    (map tradeOfCandle (List.filter positiveVol rows))) with
      | Some t => Some (price t)
      | None => priceMap s !! symbol
      end.
Proof.
  intros Hf Hne. rewrite (initializeSymbol_ok env symbol rows s Hf Hne).
  set (w := sortByTimestamp _).
  destruct (last w) as [t|] eqn:Hl.
  - match goal with
    | |- context [automadeTrades env symbol w ?s0] =>
        destruct (automadeTrades_effect env symbol w t s0 Hl)
          as (_ & Hw & Hp & _)
    end.
    unfold window. cbn [snd]. rewrite Hw, Hp.
    cbn [setPrice setTrades modify snd tradesMap priceMap].
    now rewrite !lookup_insert_eq.
  - apply last_None in Hl. rewrite Hl. unfold window.
    cbn [setTrades modify snd tradesMap priceMap].
    now rewrite lookup_insert_eq.
Qed.

(** C5, as amended.  For an answer of status ok with a non-empty array,
    the bootstrap's window holds exactly the trades of the candles whose
    [vol] is positive, each with timestamp id times 1000, in ascending
    order of timestamp.  A non-empty window is stored for the symbol and
    the symbol's latest price becomes the price of its last trade, which
    has the largest timestamp; with an empty one the stored window is
    empty and the latest price is left alone. *)
Theorem bootstrap_window (env : Env) (symbol : string) (rows : list Candle)
        (s : State) :
  nodeFetch env (klineParams symbol)
    = Normal (RespObject (Some "ok") (Some rows)) ->
  rows <> [] ->
  exists w : Trades,
    fst (fetchLatestTrades env symbol s) = Normal w /\
    Permutation w (map tradeOfCandle (List.filter positiveVol rows)) /\
    ascending w /\
    (forall t, In t w ->
       exists row, In row rows /\ (0 < row_vol row)%Q /\
                   t = tradeOfCandle row /\ timestamp t = row_id row * 1000) /\
    window (snd (initializeSymbol env symbol s)) symbol = w /\
    (forall t, last w = Some t ->
       priceMap (snd (initializeSymbol env symbol s)) !! symbol
         = Some (price t) /\
       forall x, In x w -> timestamp x <= timestamp t) /\
    (w = [] ->
     priceMap (snd (initializeSymbol env symbol s)) !! symbol
       = priceMap s !! symbol).
Proof.
  intros Hf Hne.
  exists (sortByTimestamp (map tradeOfCandle (List.filter positiveVol rows))).
  rewrite (fetchLatestTrades_ok env symbol rows s Hf Hne).
  destruct (initializeSymbol_window env symbol rows s Hf Hne) as [Hw Hp].
  set (w := sortByTimestamp _) in *.
  assert (Hperm : Permutation w
                    (map tradeOfCandle (List.filter positiveVol rows)))
    by apply sortByTimestamp_perm.
  assert (Hasc : ascending w) by apply sortByTimestamp_ascending.
  repeat split; trivial.
  - intros t Ht. apply (Permutation_in _ Hperm) in Ht.
    apply in_map_iff in Ht. destruct Ht as (row & <- & Hrow).
    apply List.filter_In in Hrow. destruct Hrow as [Hin Hpos].
    exists row. repeat split; trivial.
    unfold positiveVol in Hpos. apply Qnot_le_lt. intros Hle.
    apply Qle_bool_iff in Hle. now rewrite Hle in Hpos.
  - rewrite Hp, H0. reflexivity.
  - now apply ascending_last.
  - intros Hnil. rewrite Hp, Hnil. reflexivity.
Qed.

(** *** Size and order of the window *)

Lemma NoDup_snoc (l : list Z) (z : Z) :
  List.NoDup l -> ~ In z l -> List.NoDup (l ++ [z]).
Proof.
  intros Hn Hz. eapply Permutation_NoDup.
  - apply Permutation_cons_append.
  - now constructor.
Qed.

Lemma mergeTick_distinct (ts : Z) (p v : Decimal) (w : Trades) :
  distinct w -> distinct (mergeTick ts p v w).
Proof.
  unfold distinct. intros Hn.
  destruct (mergeTick_timestamps ts p v w) as [Hin Hout].
  destruct (in_dec Z.eq_dec ts (map timestamp w)) as [Hc|Hc].
  - now rewrite (Hin Hc).
  - rewrite (Hout Hc). now apply NoDup_snoc.
Qed.

Lemma mergeTick_ascending (ts : Z) (p v : Decimal) (w : Trades) :
  ascending w ->
  In ts (map timestamp w) \/ Forall (fun z => z <= ts) (map timestamp w) ->
  ascending (mergeTick ts p v w).
Proof.
  unfold ascending. intros Hs Hc.
  destruct (mergeTick_timestamps ts p v w) as [Hin Hout].
  destruct (in_dec Z.eq_dec ts (map timestamp w)) as [Hi|Hi].
  - now rewrite (Hin Hi).
  - destruct Hc as [Hc|Hc]; [contradiction|].
    rewrite (Hout Hi). now apply ascending_snoc.
Qed.

(** C7, as amended.  Nothing bounds the window by the fetch size.  What
    holds is that an accepted tick leaves the length of the symbol's
    window as it is when the window holds the tick's timestamp and adds
    one otherwise, and that the bootstrap stores no more trades than the
    answer has candles. *)
Theorem window_growth (env : Env) (symbol : string) (s : State) :
  (forall d tk,
      tickTarget env d = Some (symbol, tk) ->
      (In (tick_id tk * 1000) (map timestamp (window s symbol)) ->
       length (window (snd (onData env (JObject d) s)) symbol)
         = length (window s symbol)) /\
      (~ In (tick_id tk * 1000) (map timestamp (window s symbol)) ->
       length (window (snd (onData env (JObject d) s)) symbol)
         = S (length (window s symbol)))) /\
  (forall rows,
      nodeFetch env (klineParams symbol)
        = Normal (RespObject (Some "ok") (Some rows)) ->
      rows <> [] ->
      (length (window (snd (initializeSymbol env symbol s)) symbol)
         <= length rows)%nat).
Proof.
  split.
  - intros d tk Ht.
    destruct (onData_tick env d symbol tk s Ht) as (_ & Hw & _).
    rewrite Hw. apply mergeTick_length.
  - intros rows Hf Hne.
    destruct (initializeSymbol_window env symbol rows s Hf Hne) as [Hw _].
    rewrite Hw, (Permutation_length (sortByTimestamp_perm _)), length_map.
    apply List.filter_length_le.
Qed.

(** C8, as amended.  The window that the bootstrap stores is in
    non-decreasing order of timestamp, and free of repeated timestamps
    when the candles' ids are.  An accepted tick keeps the timestamps
    pairwise distinct; it keeps their order when its timestamp is already
    in the window or is not below any timestamp of the window. *)
Theorem window_order (env : Env) (symbol : string) (s : State) :
  (forall rows,
      nodeFetch env (klineParams symbol)
        = Normal (RespObject (Some "ok") (Some rows)) ->
      rows <> [] ->
      ascending (window (snd (initializeSymbol env symbol s)) symbol) /\
      (List.NoDup (map row_id rows) ->
       distinct (window (snd (initializeSymbol env symbol s)) symbol))) /\
  (forall d tk,
      tickTarget env d = Some (symbol, tk) ->
      (distinct (window s symbol) ->
       distinct (window (snd (onData env (JObject d) s)) symbol)) /\
      (ascending (window s symbol) ->
       In (tick_id tk * 1000) (map timestamp (window s symbol)) \/
       Forall (fun z => z <= tick_id tk * 1000)
              (map timestamp (window s symbol)) ->
       ascending (window (snd (onData env (JObject d) s)) symbol))).
Proof.
  split.
  - intros rows Hf Hne.
    destruct (initializeSymbol_window env symbol rows s Hf Hne) as [Hw _].
    rewrite Hw. split.
    + apply sortByTimestamp_ascending.
    + apply bootstrap_distinct.
  - intros d tk Ht.
    destruct (onData_tick env d symbol tk s Ht) as (_ & Hw & _).
    rewrite Hw. split.
    + apply mergeTick_distinct.
    + apply mergeTick_ascending.
Qed.

(** *** The calls of the synthesizer *)

Lemma onData_no_tick_calls (env : Env) (d : StreamData) (s : State) :
  tickTarget env d = None ->
  synthCalls (snd (onData env (JObject d) s)) = synthCalls s.
Proof.
  unfold tickTarget, onData.
  destruct (truthyNumber (ping d)); [reflexivity|].
  destruct (truthyString (subbed d)).
  { destruct (status d) as [st|]; [destruct (String.eqb st "ok")|];
      reflexivity. }
  destruct (isMarket d); [|reflexivity].
  destruct (findSymbol env (default EmptyString (ch d))) as [sym|];
    [|reflexivity].
  destruct (String.eqb sym EmptyString); [reflexivity|].
  destruct (tick d) as [tk|]; [discriminate|reflexivity].
Qed.

Lemma onData_calls (env : Env) (m : Decoded) (s : State) :
  synthCallsNonEmpty s -> synthCallsNonEmpty (snd (onData env m s)).
Proof.
  unfold synthCallsNonEmpty. intros Hs. destruct m as [|d]; [exact Hs|].
  destruct (tickTarget env d) as [[symbol tk]|] eqn:Ht.
  - destruct (onData_tick env d symbol tk s Ht)
      as (_ & _ & _ & _ & _ & _ & Hc).
    rewrite Hc. apply Forall_app. split; [exact Hs|].
    constructor; [|constructor]. cbn [snd]. intros Hnil.
    destruct (mergeTick_last (tick_id tk * 1000) (num (tick_close tk))
                (num (tick_amount tk)) (window s symbol)) as [t Hl].
    rewrite Hnil in Hl. discriminate.
  - now rewrite (onData_no_tick_calls env d s Ht).
Qed.

Lemma initializeSymbol_calls (env : Env) (symbol : string) (s : State) :
  synthCallsNonEmpty s ->
  synthCallsNonEmpty (snd (initializeSymbol env symbol s)).
Proof.
  unfold synthCallsNonEmpty. intros Hs.
  unfold initializeSymbol, bind at 1, tryCatch, bind at 1, fetchLatestTrades.
  cbn [setTrades modify].
  destruct (nodeFetch env (klineParams symbol))
    as [[|[st|] [[|row rows]|]]|e]; try exact Hs.
  destruct (String.eqb st "ok"); [|exact Hs].
  cbn [ret]. set (w := sortByTimestamp _).
  destruct (last w) as [t|] eqn:Hl; [|exact Hs].
  unfold bind. cbn [setTrades setPrice modify snd].
  match goal with
  | |- context [automadeTrades env symbol w ?s0] =>
      destruct (automadeTrades_effect env symbol w t s0 Hl)
        as (Hn & _ & _ & _ & _ & _ & Hc);
      destruct (automadeTrades env symbol w s0) as [res s1]
  end.
  cbn [fst snd synthCalls] in *. subst res. cbn [snd]. rewrite Hc.
  apply Forall_app. split; [exact Hs|].
  constructor; [|constructor]. cbn [snd]. intros Hnil.
  rewrite Hnil in Hl. discriminate.
Qed.

Lemma forEach_preserves {A} (Q : State -> Prop) (f : A -> M unit)
      (l : list A) (s : State) :
  (forall x s0, Q s0 -> Q (snd (f x s0))) ->
  Q s -> Q (snd (forEach f l s)).
Proof.
  intros Hf. revert s. induction l as [|x l IH]; intros s Hs; [exact Hs|].
  cbn [forEach]. unfold bind. specialize (Hf x s Hs).
  destruct (f x s) as [[[]|e] s1]; cbn [snd] in *; [now apply IH|exact Hf].
Qed.

Lemma initialize_calls (env : Env) (s : State) :
  synthCallsNonEmpty s -> synthCallsNonEmpty (snd (initialize env s)).
Proof.
  intros Hs. unfold initialize, bind.
  pose proof (forEach_preserves synthCallsNonEmpty (initializeSymbol env)
                (symbols env) s (initializeSymbol_calls env) Hs) as Hq.
  destruct (forEach (initializeSymbol env) (symbols env) s) as [[[]|e] s1];
    exact Hq.
Qed.

(** C10.  Whatever the adapter lives through, start or messages, every
    call of the synthesizer it makes carries at least one trade; so the
    list derived from the call's trades has a last element to take the
    latest price from. *)
Theorem automadeTrades_called_nonempty (env : Env) (evs : list Event)
        (s : State) :
  synthCallsNonEmpty s ->
  synthCallsNonEmpty (run env evs s) /\
  (forall call r,
      In call (synthCalls (run env evs s)) ->
      exists t, last (map (convertTrade r) (snd call)) = Some t).
Proof.
  intros Hs.
  assert (Hrun : synthCallsNonEmpty (run env evs s)).
  { revert s Hs. unfold run.
    induction evs as [|ev evs IH]; intros s Hs; [exact Hs|].
    cbn [fold_left]. apply IH. destruct ev as [|m]; cbn [handle].
    - now apply initialize_calls.
    - now apply onData_calls. }
  split; [exact Hrun|].
  intros call r Hin. unfold synthCallsNonEmpty in Hrun.
  rewrite List.Forall_forall in Hrun. specialize (Hrun call Hin).
  apply last_is_Some. destruct (snd call); [contradiction|discriminate].
Qed.

End Properties.

(** ** The properties on concrete inputs *)

(** Two ticks of the minute 60 for BTC/USDT on a fresh adapter: one entry,
    with the second tick's price and volume. *)
Lemma onData_merges_tick_witness :
  tickTarget btcEnv (tickData btcChannel 60 (49000 # 1) 1)
    = Some ("BTC/USDT",
            {| tick_id := 60; tick_close := 49000 # 1; tick_amount := 1 |}) /\
  List.filter (hasTimestamp 60000)
    (window
       (snd (onData btcEnv (tickMessage btcChannel 60 (50000 # 1) 2)
               (snd (onData btcEnv (tickMessage btcChannel 60 (49000 # 1) 1)
                       initialState))))
       "BTC/USDT")
  = [btcTrade].
Proof.
  split; [vm_compute; reflexivity|].
  destruct (onData_merges_tick btcEnv btcEnv
              (tickData btcChannel 60 (49000 # 1) 1)
              (tickData btcChannel 60 (50000 # 1) 2)
              "BTC/USDT"
              {| tick_id := 60; tick_close := 49000 # 1; tick_amount := 1 |}
              {| tick_id := 60; tick_close := 50000 # 1; tick_amount := 2 |}
              initialState)
    as (_ & _ & _ & _ & Honce);
    [vm_compute; reflexivity | vm_compute; reflexivity | reflexivity |].
  apply Honce. vm_compute. lia.
Defined.

(** C1 fails on a window that repeats the timestamp.  The bootstrap keeps
    both candles of an answer that repeats the id 100; two equal ticks of
    the id 100 then leave two entries of the timestamp 100000, the first
    with the ticks' price and volume and the second with the second
    candle's. *)
Lemma repeated_tick_keeps_repeated_entries :
  map timestamp (window (run repeatedIdEnv [EvInitialize] initialState)
                        "BTC/USDT")
    = [100000; 100000] /\
  tickTarget repeatedIdEnv (tickData btcChannel 100 12 3)
    = Some ("BTC/USDT",
            {| tick_id := 100; tick_close := 12; tick_amount := 3 |}) /\
  List.filter (hasTimestamp 100000)
    (window (run repeatedIdEnv
               [EvInitialize; EvData (tickMessage btcChannel 100 12 3);
                EvData (tickMessage btcChannel 100 12 3)]
               initialState)
            "BTC/USDT")
    = [@Build_Trade QDecimal 12%Q 3%Q 100000;
       @Build_Trade QDecimal 11%Q 2%Q 100000].
Proof. repeat split; vm_compute; reflexivity. Qed.

(** The spec's example: at the rate 1300 a BTC/USDT trade of price 50000
    yields a BTC/KRW trade of price 50000 / 1300 with the same volume. *)
Lemma automadeTrades_derives_witness :
  rate btcEnv = Some (1300 # 1)%Q /\
  quoteIsUSDT "BTC/USDT" = true /\
  tradesMap (snd (automadeTrades btcEnv "BTC/USDT" [btcTrade] initialState))
    !! "BTC/USDT" = tradesMap initialState !! "BTC/USDT" /\
  exists (derived : Trades) (d : Trade),
    tradesMap (snd (automadeTrades btcEnv "BTC/USDT" [btcTrade] initialState))
      !! "BTC/KRW" = Some derived /\
    length derived = 1%nat /\
    derived !! 0%nat = Some d /\
    price d = dividedBy (50000 # 1)%Q (1300 # 1)%Q /\
    volume d = 2%Q /\
    priceMap (snd (automadeTrades btcEnv "BTC/USDT" [btcTrade] initialState))
      !! "BTC/KRW" = Some (price d).
Proof.
  split; [reflexivity|]. split; [vm_compute; reflexivity|].
  destruct (automadeTrades_derives btcEnv (1300 # 1)%Q "BTC/USDT" [btcTrade]
              initialState)
    as (_ & Hother & derived & Hw & Hlen & Hat & Hprice);
    [reflexivity | vm_compute; reflexivity |].
  split.
  { destruct (Hother "BTC/USDT") as [Hsame _]; [discriminate|exact Hsame]. }
  destruct (Hat 0%nat btcTrade eq_refl) as (d & Hd & Hp & Hv & _).
  exists derived, d.
  split; [exact Hw|]. split; [exact Hlen|]. split; [exact Hd|].
  split; [exact Hp|]. split; [exact Hv|].
  destruct derived as [|d0 [|d1 l]]; try discriminate Hlen.
  injection Hd as ->. apply (Hprice d). reflexivity.
Defined.

(** Without a rate a call leaves BTC/KRW as it was. *)
Lemma automadeTrades_skips_witness :
  (rate noRateEnv = None \/ quoteIsUSDT "BTC/USDT" = false) /\
  tradesMap (snd (automadeTrades noRateEnv "BTC/USDT" [btcTrade] initialState))
  = tradesMap initialState.
Proof.
  split; [left; reflexivity|].
  apply (automadeTrades_skips noRateEnv "BTC/USDT" [btcTrade] initialState).
  left. reflexivity.
Defined.

(** C3 fails for a rate of zero: the decimal zero is an object, the guard
    [!rate] lets it pass, and BTC/KRW, absent from the store before the
    call, gets a window and a latest price. *)
Lemma automadeTrades_zero_rate_writes :
  rate zeroRateEnv = Some 0%Q /\
  quoteIsUSDT "BTC/USDT" = true /\
  tradesMap initialState !! "BTC/KRW" = None /\
  priceMap initialState !! "BTC/KRW" = None /\
  tradesMap (snd (automadeTrades zeroRateEnv "BTC/USDT" [btcTrade]
                    initialState)) !! "BTC/KRW"
  = Some [convertTrade 0%Q btcTrade] /\
  priceMap (snd (automadeTrades zeroRateEnv "BTC/USDT" [btcTrade]
                   initialState)) !! "BTC/KRW"
  = Some (dividedBy (price btcTrade) 0%Q).
Proof. repeat split; vm_compute; reflexivity. Qed.

(** The bytes of the text hello are no deflate stream. *)
Lemma onRawData_inflate_error_escapes_witness :
  inflate rejectingInflate helloFrame
    = Throw (LibraryError "incorrect header check") /\
  onRawData rejectingInflate btcEnv helloFrame initialState
    = (Throw (LibraryError "incorrect header check"), initialState).
Proof.
  split; [reflexivity|].
  apply (onRawData_inflate_error_escapes rejectingInflate btcEnv helloFrame).
  reflexivity.
Defined.

(** The spec's ordering example: the candles of ids 100 and 90 give a
    window with 90000 before 100000, and the latest price 10 of the
    candle of id 100. *)
Lemma bootstrap_window_witness :
  nodeFetch btcEnv (klineParams "BTC/USDT")
    = Normal (RespObject (Some "ok")
                (Some [candle 100 10 1 5; candle 90 9 1 3])) /\
  [candle 100 10 1 5; candle 90 9 1 3] <> [] /\
  exists w : Trades,
    fst (fetchLatestTrades btcEnv "BTC/USDT" initialState) = Normal w /\
    ascending w /\
    window (snd (initializeSymbol btcEnv "BTC/USDT" initialState)) "BTC/USDT"
      = w.
Proof.
  split; [reflexivity|]. split; [discriminate|].
  destruct (bootstrap_window btcEnv "BTC/USDT"
              [candle 100 10 1 5; candle 90 9 1 3] initialState)
    as (w & Hfetch & _ & Hasc & _ & Hwin & _);
    [reflexivity | discriminate |].
  exists w. repeat split; assumption.
Defined.

(** C5 fails for a candle of negative [vol]: its volume is not zero, yet
    the filter [parseFloat(row.vol) > 0] drops it and the window is
    empty. *)
Lemma bootstrap_drops_negative_vol :
  nodeFetch negativeVolEnv (klineParams "BTC/USDT")
    = Normal (RespObject (Some "ok") (Some [candle 100 10 1 (-1)])) /\
  ~ (row_vol (candle 100 10 1 (-1)) == 0)%Q /\
  fetchLatestTrades negativeVolEnv "BTC/USDT" initialState
    = (Normal [], initialState) /\
  window (snd (initializeSymbol negativeVolEnv "BTC/USDT" initialState))
         "BTC/USDT" = [].
Proof.
  split; [reflexivity|]. split; [discriminate|].
  split; vm_compute; reflexivity.
Qed.

(** After the start of the adapter the first three checks answer true,
    false, false. *)
Lemma update_reports_once_witness :
  isUpdated (snd (initialize btcEnv initialState)) = true /\
  fst (polls 3 (snd (initialize btcEnv initialState)))
  = [Normal true; Normal false; Normal false].
Proof.
  split; [vm_compute; reflexivity|].
  destruct (update_reports_once btcEnv (snd (initialize btcEnv initialState))
              2%nat) as (_ & _ & Honce & _).
  apply Honce. vm_compute. reflexivity.
Defined.

(** A tick of a new minute makes the bootstrapped window one longer. *)
Lemma window_growth_witness :
  tickTarget btcEnv (tickData btcChannel 101 11 1)
    = Some ("BTC/USDT",
            {| tick_id := 101; tick_close := 11; tick_amount := 1 |}) /\
  length (window
            (snd (onData btcEnv (tickMessage btcChannel 101 11 1)
                    (snd (initialize btcEnv initialState))))
            "BTC/USDT")
  = S (length (window (snd (initialize btcEnv initialState)) "BTC/USDT")).
Proof.
  split; [vm_compute; reflexivity|].
  destruct (window_growth btcEnv "BTC/USDT"
              (snd (initialize btcEnv initialState))) as [Htick _].
  destruct (Htick (tickData btcChannel 101 11 1)
              {| tick_id := 101; tick_close := 11; tick_amount := 1 |})
    as [_ Hnew]; [vm_compute; reflexivity|].
  apply Hnew. vm_compute. intros [Hx|[Hx|[]]]; discriminate.
Defined.

(** C7 fails after a bootstrap of ten candles and one tick of the next
    minute: the window has eleven trades, one more than the fetch size. *)
Lemma window_exceeds_fetch_size :
  length (window (run tenEnv [EvInitialize] initialState) "BTC/USDT")
    = 10%nat /\
  length (window
            (run tenEnv [EvInitialize; EvData (tickMessage btcChannel 11 10 1)]
                 initialState)
            "BTC/USDT")
    = 11%nat /\
  fetchSize < 11.
Proof. repeat split; vm_compute; reflexivity. Qed.

(** The bootstrapped window is ascending, and a tick of a later minute
    keeps it so. *)
Lemma window_order_witness :
  tickTarget btcEnv (tickData btcChannel 101 11 1)
    = Some ("BTC/USDT",
            {| tick_id := 101; tick_close := 11; tick_amount := 1 |}) /\
  ascending (window (snd (initializeSymbol btcEnv "BTC/USDT" initialState))
                    "BTC/USDT") /\
  ascending (window
               (snd (onData btcEnv (tickMessage btcChannel 101 11 1)
                       (snd (initializeSymbol btcEnv "BTC/USDT"
                               initialState))))
               "BTC/USDT").
Proof.
  split; [vm_compute; reflexivity|].
  destruct (window_order btcEnv "BTC/USDT" initialState) as [Hboot _].
  destruct (Hboot [candle 100 10 1 5; candle 90 9 1 3])
    as [Hasc _]; [reflexivity | discriminate |].
  split; [exact Hasc|].
  destruct (window_order btcEnv "BTC/USDT"
              (snd (initializeSymbol btcEnv "BTC/USDT" initialState)))
    as [_ Htick].
  destruct (Htick (tickData btcChannel 101 11 1)
              {| tick_id := 101; tick_close := 11; tick_amount := 1 |})
    as [_ Hkeep]; [vm_compute; reflexivity|].
  apply Hkeep; [exact Hasc|].
  right. vm_compute. repeat constructor; discriminate.
Defined.

(** C8 fails in both halves.  The minute 95 had no trades at bootstrap,
    so its candle was filtered out; its tick arrives afterwards and is
    appended behind the minute 100.  And an answer that repeats a candle
    id gives a window that repeats a timestamp. *)
Lemma window_out_of_order :
  map timestamp
      (window (run gapEnv [EvInitialize; EvData (tickMessage btcChannel 95 9 1)]
                   initialState)
              "BTC/USDT")
    = [90000; 100000; 95000] /\
  ~ ascending
      (window (run gapEnv [EvInitialize; EvData (tickMessage btcChannel 95 9 1)]
                   initialState)
              "BTC/USDT") /\
  ~ distinct (window (run repeatedIdEnv [EvInitialize] initialState)
                     "BTC/USDT").
Proof.
  assert (Hts : map timestamp
            (window (run gapEnv
                       [EvInitialize; EvData (tickMessage btcChannel 95 9 1)]
                       initialState) "BTC/USDT")
          = [90000; 100000; 95000]) by (vm_compute; reflexivity).
  split; [exact Hts|]. split.
  - unfold ascending. rewrite Hts. intros Hs.
    apply StronglySorted_inv in Hs. destruct Hs as [Hs _].
    apply StronglySorted_inv in Hs. destruct Hs as [_ Hf].
    apply Forall_cons_iff in Hf. destruct Hf as [Hle _]. lia.
  - unfold distinct.
    assert (Hd : map timestamp
              (window (run repeatedIdEnv [EvInitialize] initialState)
                      "BTC/USDT")
            = [100000; 100000]) by (vm_compute; reflexivity).
    rewrite Hd. intros Hn. apply List.NoDup_cons_iff in Hn.
    destruct Hn as [Hnotin _]. apply Hnotin. now left.
Qed.

(** An object without [ping], [subbed] and [ch] is thrown back. *)
Lemma onData_rejects_unknown_witness :
  isPing (JObject unknownData) = false /\
  isSubscriptionAck (JObject unknownData) = false /\
  isMarketData (JObject unknownData) = false /\
  onData btcEnv (JObject unknownData) initialState
    = (Throw (ProtocolError unknownData), initialState).
Proof.
  split; [reflexivity|]. split; [reflexivity|]. split; [reflexivity|].
  apply (onData_rejects_unknown btcEnv (JObject unknownData) initialState);
    reflexivity.
Defined.

(** The start of the adapter and two ticks. *)
Lemma automadeTrades_called_nonempty_witness :
  synthCallsNonEmpty initialState /\
  synthCallsNonEmpty
    (run btcEnv
         [EvInitialize; EvData (tickMessage btcChannel 101 11 1);
          EvData (tickMessage btcChannel 101 12 2)]
         initialState).
Proof.
  split; [constructor|].
  apply (automadeTrades_called_nonempty btcEnv
           [EvInitialize; EvData (tickMessage btcChannel 101 11 1);
            EvData (tickMessage btcChannel 101 12 2)]
           initialState).
  constructor.
Defined.

(** The other half of [onRawData] on a concrete frame: a text that is no
    JSON is reported, and the call returns after [alive()]. *)
Lemma onRawData_parse_error_example :
  fst (onRawData rejectingParse btcEnv helloFrame initialState) = Normal tt /\
  reported (snd (onRawData rejectingParse btcEnv helloFrame initialState))
    = [LibraryError "SyntaxError"] /\
  aliveCalls (snd (onRawData rejectingParse btcEnv helloFrame initialState))
    = 1%nat.
Proof.
  rewrite (onRawData_parse_error_reported rejectingParse btcEnv helloFrame
             "not json" (LibraryError "SyntaxError") initialState eq_refl
             eq_refl).
  repeat split.
Qed.

(** ** Further properties of the provider *)

Section MoreProperties.

Context `{DecimalLib}.

(** *** What the synthesizer and the tick handler leave alone *)

Lemma automadeTrades_frame (env : Env) (symbol : string) (trades : Trades)
      (s : State) :
  isUpdated (snd (automadeTrades env symbol trades s)) = isUpdated s /\
  sent (snd (automadeTrades env symbol trades s)) = sent s /\
  reported (snd (automadeTrades env symbol trades s)) = reported s /\
  logged (snd (automadeTrades env symbol trades s)) = logged s /\
  aliveCalls (snd (automadeTrades env symbol trades s)) = aliveCalls s /\
  wsUrl (snd (automadeTrades env symbol trades s)) = wsUrl s /\
  (forall k,
      k <> convertedSymbol symbol \/ rate env = None
      \/ quoteIsUSDT symbol = false ->
      tradesMap (snd (automadeTrades env symbol trades s)) !! k
        = tradesMap s !! k /\
      priceMap (snd (automadeTrades env symbol trades s)) !! k
        = priceMap s !! k).
Proof.
  unfold automadeTrades, bind. cbn [traceSynth modify].
  destruct (rate env) as [r|]; [destruct (quoteIsUSDT symbol)|];
    try (repeat split; reflexivity).
  cbn [setTrades modify].
  destruct (last (map (convertTrade r) trades)) as [t|];
    cbn [setPrice modify throw snd tradesMap priceMap isUpdated sent
         reported logged aliveCalls wsUrl];
    repeat split; try reflexivity;
    destruct H0 as [Hk|[Hk|Hk]]; try discriminate;
    rewrite ?lookup_insert_ne by congruence; reflexivity.
Qed.

Lemma tickTarget_found (env : Env) (d : StreamData) (symbol : string)
      (tk : Tick) :
  tickTarget env d = Some (symbol, tk) ->
  truthyNumber (ping d) = false /\
  truthyString (subbed d) = false /\
  isMarket d = true /\
  findSymbol env (default EmptyString (ch d)) = Some symbol /\
  tick d = Some tk.
Proof.
  unfold tickTarget.
  destruct (truthyNumber (ping d)); [discriminate|].
  destruct (truthyString (subbed d)); [discriminate|].
  destruct (isMarket d); [|discriminate].
  destruct (findSymbol env (default EmptyString (ch d))) as [sym|];
    [|discriminate].
  destruct (String.eqb sym EmptyString); [discriminate|].
  destruct (tick d) as [tk'|]; [|discriminate].
  intros [= -> ->]. repeat split.
Qed.

Lemma findSymbol_in (env : Env) (c symbol : string) :
  findSymbol env c = Some symbol ->
  In symbol (symbols env) /\ stripSlash symbol = channelSymbol c.
Proof.
  unfold findSymbol. intros Hf. apply List.find_some in Hf.
  destruct Hf as [Hin Heq]. split; [exact Hin|].
  now apply String.eqb_eq in Heq.
Qed.

(** A message that is not merged as a tick changes nothing but the
    frames sent. *)
Lemma onData_no_tick_frame (env : Env) (d : StreamData) (s : State) :
  tickTarget env d = None ->
  tradesMap (snd (onData env (JObject d) s)) = tradesMap s /\
  priceMap (snd (onData env (JObject d) s)) = priceMap s /\
  isUpdated (snd (onData env (JObject d) s)) = isUpdated s /\
  reported (snd (onData env (JObject d) s)) = reported s /\
  logged (snd (onData env (JObject d) s)) = logged s /\
  aliveCalls (snd (onData env (JObject d) s)) = aliveCalls s /\
  wsUrl (snd (onData env (JObject d) s)) = wsUrl s /\
  sent (snd (onData env (JObject d) s))
    = (sent s ++ pongOf (JObject d))%list.
Proof.
  unfold tickTarget, onData, pongOf.
  destruct (truthyNumber (ping d)); [repeat split|].
  assert (Hnil : forall l : list Outgoing, l = (l ++ [])%list)
    by (intros l; now rewrite app_nil_r).
  destruct (truthyString (subbed d)).
  { destruct (status d) as [st|]; [destruct (String.eqb st "ok")|];
      repeat split; apply Hnil. }
  destruct (isMarket d); [|repeat split; apply Hnil].
  destruct (findSymbol env (default EmptyString (ch d))) as [sym|];
    [|repeat split; apply Hnil].
  destruct (String.eqb sym EmptyString); [repeat split; apply Hnil|].
  destruct (tick d) as [tk|]; [discriminate|repeat split; apply Hnil].
Qed.

(** The same for an accepted tick, whose writes are those of the merge
    and of the synthesizer. *)
Lemma onData_tick_frame (env : Env) (d : StreamData) (symbol : string)
      (tk : Tick) (s : State) :
  tickTarget env d = Some (symbol, tk) ->
  logged (snd (onData env (JObject d) s)) = logged s /\
  aliveCalls (snd (onData env (JObject d) s)) = aliveCalls s /\
  wsUrl (snd (onData env (JObject d) s)) = wsUrl s /\
  (forall k,
      k <> symbol ->
      k <> convertedSymbol symbol \/ rate env = None
      \/ quoteIsUSDT symbol = false ->
      tradesMap (snd (onData env (JObject d) s)) !! k = tradesMap s !! k /\
      priceMap (snd (onData env (JObject d) s)) !! k = priceMap s !! k).
Proof.
  intros Ht. rewrite (onData_tick_eq env d symbol tk s Ht).
  set (trades := mergeTick _ _ _ _).
  set (s0 := snd (setPrice symbol _ _)).
  destruct (automadeTrades_frame env symbol trades s0)
    as (_ & _ & _ & Hl & Ha & Hu & Hk).
  destruct (automadeTrades env symbol trades s0) as [[[]|e] s1];
    cbn [setUpdated modify snd fst tradesMap priceMap logged aliveCalls
         wsUrl] in *;
    (repeat split; [exact Hl|exact Ha|exact Hu| |]);
    destruct (Hk k H1) as [Hkt Hkp];
    rewrite ?Hkt, ?Hkp; unfold s0;
    cbn [setPrice setTrades modify snd tradesMap priceMap];
    now rewrite lookup_insert_ne by congruence.
Qed.

(** X1.  Whatever the message, the only frame [onData] sends is the pong
    of a ping, carrying the ping's nonce; every other message, an
    accepted tick included, sends nothing. *)
Theorem onData_sends_only_pongs (env : Env) (m : Decoded) (s : State) :
  sent (snd (onData env m s)) = (sent s ++ pongOf m)%list.
Proof.
  destruct m as [|d]; [cbn; now rewrite app_nil_r|].
  destruct (tickTarget env d) as [[symbol tk]|] eqn:Ht.
  - destruct (onData_tick env d symbol tk s Ht) as (_ & _ & _ & _ & Hs & _).
    destruct (tickTarget_found env d symbol tk Ht) as (Hp & _).
    rewrite Hs. unfold pongOf. rewrite Hp. now rewrite app_nil_r.
  - now destruct (onData_no_tick_frame env d s Ht)
      as (_ & _ & _ & _ & _ & _ & _ & Hs).
Qed.

(** X2.  Only an accepted tick touches the store and the liveness flag: a
    message that [onData] does not merge (ping, subscription answer,
    unknown channel, tick-less or unknown message, null) leaves every
    window, every latest price and the flag as they were, and reports
    nothing itself. *)
Theorem onData_only_ticks_mutate (env : Env) (m : Decoded) (s : State) :
  tickOf env m = None ->
  tradesMap (snd (onData env m s)) = tradesMap s /\
  priceMap (snd (onData env m s)) = priceMap s /\
  isUpdated (snd (onData env m s)) = isUpdated s /\
  reported (snd (onData env m s)) = reported s.
Proof.
  destruct m as [|d]; cbn [tickOf]; [intros _; repeat split|].
  intros Ht.
  destruct (onData_no_tick_frame env d s Ht) as (Ht' & Hp & Hu & Hr & _).
  repeat split; assumption.
Qed.

(** X3.  A kline message whose channel names no configured symbol is
    ignored: [onData] returns normally and the adapter is unchanged. *)
Theorem onData_unknown_channel_ignored (env : Env) (d : StreamData)
        (s : State) :
  truthyNumber (ping d) = false ->
  truthyString (subbed d) = false ->
  isMarket d = true ->
  findSymbol env (default EmptyString (ch d)) = None ->
  onData env (JObject d) s = (Normal tt, s).
Proof.
  intros Hp Hs Hm Hf. unfold onData. now rewrite Hp, Hs, Hm, Hf.
Qed.

(** X4.  A subscription answer that is no ping is accepted silently when
    its status is ok, and thrown back as an error, with the adapter
    unchanged, when the status is anything else or missing. *)
Theorem onData_subscription_answer (env : Env) (d : StreamData) (s : State) :
  truthyNumber (ping d) = false ->
  truthyString (subbed d) = true ->
  (status d = Some "ok" -> onData env (JObject d) s = (Normal tt, s)) /\
  (status d <> Some "ok" ->
   onData env (JObject d) s = (Throw (ProtocolError d), s)).
Proof.
  intros Hp Hs. unfold onData. rewrite Hp, Hs. split.
  - now intros ->.
  - intros Hne. destruct (status d) as [st|]; [|reflexivity].
    destruct (String.eqb_spec st "ok") as [->|Hst]; [contradiction|].
    reflexivity.
Qed.

(** *** Subscriptions and the way back from a channel to its symbol *)

Lemma forEach_wsSend (f : string -> Outgoing) (l : list string) (s : State) :
  fst (forEach (fun x => wsSend (f x)) l s) = Normal tt /\
  sent (snd (forEach (fun x => wsSend (f x)) l s)) = (sent s ++ map f l)%list /\
  tradesMap (snd (forEach (fun x => wsSend (f x)) l s)) = tradesMap s /\
  priceMap (snd (forEach (fun x => wsSend (f x)) l s)) = priceMap s /\
  isUpdated (snd (forEach (fun x => wsSend (f x)) l s)) = isUpdated s.
Proof.
  revert s. induction l as [|x l IH]; intros s.
  - cbn. now rewrite app_nil_r.
  - cbn [forEach]. unfold bind. cbn [wsSend modify].
    match goal with
    | |- context [forEach _ l ?s0] =>
        destruct (IH s0) as (Hn & Hs & Ht & Hp & Hu)
    end.
    rewrite Hn, Hs, Ht, Hp, Hu. cbn [sent tradesMap priceMap isUpdated map].
    rewrite <- app_assoc. repeat split.
Qed.

(** X5.  On connect the adapter sends one subscription per configured
    symbol, in the order of the configuration, each to the channel
    market.<symbol without slash, lower case>.kline.1min; it never throws
    and does not touch the store or the flag. *)
Theorem onConnect_subscribes (env : Env) (s : State) :
  fst (onConnect env s) = Normal tt /\
  sent (snd (onConnect env s))
    = (sent s ++ map (fun symbol => Sub (subscriptionChannel symbol))
                     (symbols env))%list /\
  tradesMap (snd (onConnect env s)) = tradesMap s /\
  priceMap (snd (onConnect env s)) = priceMap s /\
  isUpdated (snd (onConnect env s)) = isUpdated s.
Proof.
  exact (forEach_wsSend (fun symbol => Sub (subscriptionChannel symbol))
           (symbols env) s).
Qed.

Lemma upper_lower_ascii (c : ascii) :
  isUpperAlnum c = true ->
  JsString.upperAscii (JsString.lowerAscii c) = c /\
  Ascii.eqb "." (JsString.lowerAscii c) = false.
Proof.
  destruct c as [[] [] [] [] [] [] [] []]; vm_compute; intros Hc;
    try discriminate Hc; split; reflexivity.
Qed.

Lemma upperAscii_not_lower (c : ascii) :
  isLowerLetter (JsString.upperAscii c) = false.
Proof.
  destruct c as [[] [] [] [] [] [] [] []]; vm_compute; reflexivity.
Qed.

Lemma toUpperCase_no_lower (x : string) :
  allChars (fun c => negb (isLowerLetter c)) (JsString.toUpperCase x) = true.
Proof.
  induction x as [|c r IH]; [reflexivity|].
  cbn [JsString.toUpperCase JsString.mapChars allChars].
  rewrite upperAscii_not_lower. exact IH.
Qed.

Lemma upper_lower_string (x : string) :
  allChars isUpperAlnum x = true ->
  JsString.toUpperCase (JsString.toLowerCase x) = x.
Proof.
  induction x as [|c r IH]; [reflexivity|].
  cbn [allChars]. intros Hx. apply andb_prop in Hx. destruct Hx as [Hc Hr].
  cbn [JsString.toUpperCase JsString.toLowerCase JsString.mapChars].
  destruct (upper_lower_ascii c Hc) as [-> _]. f_equal. now apply IH.
Qed.

(** Removing the kline suffix from a lower-cased symbol followed by
    it. *)
Lemma replace_kline_suffix (x : string) :
  allChars isUpperAlnum x = true ->
  JsString.replace ".kline.1min" EmptyString
    (JsString.toLowerCase x ++ ".kline.1min")
  = JsString.toLowerCase x.
Proof.
  induction x as [|c r IH]; [reflexivity|].
  cbn [allChars]. intros Hx. apply andb_prop in Hx. destruct Hx as [Hc Hr].
  destruct (upper_lower_ascii c Hc) as [_ Hdot].
  change (JsString.toLowerCase (String c r))
    with (String (JsString.lowerAscii c) (JsString.toLowerCase r)).
  change (String (JsString.lowerAscii c) (JsString.toLowerCase r)
          ++ ".kline.1min")
    with (String (JsString.lowerAscii c)
            (JsString.toLowerCase r ++ ".kline.1min")).
  cbn [JsString.replace JsString.dropPrefix]. rewrite Hdot.
  f_equal. now apply IH.
Qed.

(** The channel of a subscription leads back to the symbol it was made
    from, slash removed. *)
Lemma channelSymbol_subscription (symbol : string) :
  allChars isUpperAlnum (stripSlash symbol) = true ->
  channelSymbol (subscriptionChannel symbol) = stripSlash symbol.
Proof.
  intros Hx. unfold channelSymbol, subscriptionChannel.
  change (JsString.replace "market." EmptyString
            ("market." ++ JsString.toLowerCase (stripSlash symbol)
             ++ ".kline.1min"))
    with (JsString.toLowerCase (stripSlash symbol) ++ ".kline.1min").
  rewrite (replace_kline_suffix _ Hx). now apply upper_lower_string.
Qed.

Lemma NoDup_map_injective {A B} (f : A -> B) (l : list A) (a b : A) :
  List.NoDup (map f l) -> In a l -> In b l -> f a = f b -> a = b.
Proof.
  induction l as [|x l IH]; cbn [map In]; intros Hn Ha Hb Hab; [easy|].
  apply List.NoDup_cons_iff in Hn. destruct Hn as [Hx Hn].
  destruct Ha as [<-|Ha], Hb as [<-|Hb]; trivial.
  - exfalso. apply Hx. rewrite Hab. now apply in_map.
  - exfalso. apply Hx. rewrite <- Hab. now apply in_map.
  - now apply IH.
Qed.

(** X6.  Round trip of the subscription: for a configured symbol written
    in upper-case letters and digits around its slash, the channel the
    adapter subscribed to is resolved by [onData] to a configured symbol
    of the same slash-less name, the symbol itself when the configured
    symbols have pairwise different slash-less names. *)
Theorem subscription_channel_resolves (env : Env) (symbol : string) :
  In symbol (symbols env) ->
  allChars isUpperAlnum (stripSlash symbol) = true ->
  (exists found,
      findSymbol env (subscriptionChannel symbol) = Some found /\
      In found (symbols env) /\
      stripSlash found = stripSlash symbol) /\
  (List.NoDup (map stripSlash (symbols env)) ->
   findSymbol env (subscriptionChannel symbol) = Some symbol).
Proof.
  intros Hin Hx.
  assert (Hex : exists found,
             findSymbol env (subscriptionChannel symbol) = Some found).
  { destruct (findSymbol env (subscriptionChannel symbol)) as [f|] eqn:Hf;
      [now exists f|].
    unfold findSymbol in Hf.
    pose proof (List.find_none _ _ Hf symbol Hin) as Hno.
    cbn beta in Hno. fold (stripSlash symbol) in Hno.
    rewrite (channelSymbol_subscription symbol Hx), String.eqb_refl in Hno.
    discriminate. }
  destruct Hex as [found Hf].
  destruct (findSymbol_in env _ found Hf) as [Hfin Hfs].
  rewrite (channelSymbol_subscription symbol Hx) in Hfs.
  split.
  - exists found. repeat split; assumption.
  - intros Hn. rewrite Hf. f_equal.
    exact (NoDup_map_injective stripSlash (symbols env) found symbol
             Hn Hfin Hin Hfs).
Qed.

(** X7.  [onData] upper-cases the channel before it looks for the symbol,
    so the symbol it finds has no lower-case letter: a configured symbol
    that contains one is subscribed to but is never given a tick. *)
Theorem findSymbol_never_lower_case (env : Env) (c symbol : string) :
  findSymbol env c = Some symbol ->
  allChars (fun a => negb (isLowerLetter a)) (stripSlash symbol) = true.
Proof.
  intros Hf. destruct (findSymbol_in env c symbol Hf) as [_ ->].
  apply toUpperCase_no_lower.
Qed.

(** *** The symbols the quoter answers for *)

Lemma convertedSymbol_truthy (symbol : string) :
  truthyString (Some (convertedSymbol symbol)) = true.
Proof.
  unfold truthyString, convertedSymbol.
  destruct (getBaseCurrency symbol) as [|c b]; reflexivity.
Qed.

Lemma getAutomadeSymbols_eq (env : Env) :
  getAutomadeSymbols env
  = map convertedSymbol (List.filter quoteIsUSDT (symbols env)).
Proof.
  unfold getAutomadeSymbols. induction (symbols env) as [|x l IH];
    [reflexivity|].
  cbn [map List.filter]. unfold automadeSymbol at 1.
  destruct (quoteIsUSDT x).
  - cbn [truthyStrings map]. rewrite convertedSymbol_truthy. now f_equal.
  - exact IH.
Qed.

(** X8.  [getAutomadeSymbols] is the list of the base/KRW symbols of the
    configured symbols quoted in USDT, in their order, and [getSymbols]
    is the configured symbols followed by that list: no derived symbol is
    lost to the truthiness filter, and none is added for a symbol of
    another quote currency. *)
Theorem getSymbols_lists_derived (env : Env) :
  getAutomadeSymbols env
    = map convertedSymbol (List.filter quoteIsUSDT (symbols env)) /\
  getSymbols env = (symbols env ++ getAutomadeSymbols env)%list /\
  (forall k, In k (getAutomadeSymbols env) <->
             exists symbol, In symbol (symbols env) /\
                            quoteIsUSDT symbol = true /\
                            k = convertedSymbol symbol) /\
  (length (getSymbols env) <= 2 * length (symbols env))%nat.
Proof.
  pose proof (getAutomadeSymbols_eq env) as He.
  split; [exact He|]. split; [reflexivity|]. split.
  - intros k. rewrite He, in_map_iff. split.
    + intros (x & <- & Hx). apply List.filter_In in Hx. exists x. tauto.
    + intros (x & Hin & Hq & ->). exists x. split; [reflexivity|].
      apply List.filter_In. tauto.
  - change (getSymbols env) with (symbols env ++ getAutomadeSymbols env)%list.
    rewrite length_app, He, length_map.
    pose proof (List.filter_length_le quoteIsUSDT (symbols env)). lia.
Qed.

Lemma advertised_keys (env : Env) (symbol k : string) :
  In symbol (symbols env) ->
  ~ In k (getSymbols env) ->
  k <> symbol /\
  (k <> convertedSymbol symbol \/ rate env = None
   \/ quoteIsUSDT symbol = false).
Proof.
  intros Hin Hk. unfold getSymbols in Hk. fold (getAutomadeSymbols env) in Hk.
  rewrite in_app_iff in Hk. split.
  - intros ->. tauto.
  - destruct (quoteIsUSDT symbol) eqn:Hq; [|tauto].
    left. intros ->. apply Hk. right.
    rewrite getAutomadeSymbols_eq. apply in_map.
    apply List.filter_In. tauto.
Qed.

(** X9.  [onData] writes only under symbols that [getSymbols] lists:
    whatever the message, the window and the latest price of any other
    key of the shared store are left as they were. *)
Theorem onData_writes_only_own_symbols (env : Env) (m : Decoded)
        (k : string) (s : State) :
  ~ In k (getSymbols env) ->
  tradesMap (snd (onData env m s)) !! k = tradesMap s !! k /\
  priceMap (snd (onData env m s)) !! k = priceMap s !! k.
Proof.
  intros Hk. destruct m as [|d]; [split; reflexivity|].
  destruct (tickTarget env d) as [[symbol tk]|] eqn:Ht.
  - destruct (tickTarget_found env d symbol tk Ht) as (_ & _ & _ & Hf & _).
    destruct (findSymbol_in env _ symbol Hf) as [Hin _].
    destruct (advertised_keys env symbol k Hin Hk) as [Hne Hc].
    destruct (onData_tick_frame env d symbol tk s Ht) as (_ & _ & _ & Hfr).
    exact (Hfr k Hne Hc).
  - destruct (onData_no_tick_frame env d s Ht) as (-> & -> & _).
    split; reflexivity.
Qed.

(** *** The bootstrap, symbol by symbol *)

Lemma option_list_nil {A} (l : list A) : l = (l ++ [])%list.
Proof. now rewrite app_nil_r. Qed.

(** What the bootstrap of one symbol changes. *)
Lemma initializeSymbol_frame (env : Env) (symbol : string) (s : State) :
  sent (snd (initializeSymbol env symbol s)) = sent s /\
  isUpdated (snd (initializeSymbol env symbol s)) = isUpdated s /\
  wsUrl (snd (initializeSymbol env symbol s)) = wsUrl s /\
  aliveCalls (snd (initializeSymbol env symbol s)) = aliveCalls s /\
  reported (snd (initializeSymbol env symbol s))
    = (reported s ++ match fetchError env symbol with
                     | Some e => [e]
                     | None => []
                     end)%list /\
  (forall k,
      k <> symbol ->
      k <> convertedSymbol symbol \/ rate env = None
      \/ quoteIsUSDT symbol = false ->
      tradesMap (snd (initializeSymbol env symbol s)) !! k
        = tradesMap s !! k /\
      priceMap (snd (initializeSymbol env symbol s)) !! k
        = priceMap s !! k).
Proof.
  remember (initializeSymbol env symbol s) as r eqn:Hr.
  unfold initializeSymbol, bind at 1, tryCatch, bind at 1,
    fetchLatestTrades in Hr.
  cbn [setTrades modify] in Hr. unfold fetchError.
  assert (Hfail : forall k (m : gmap string (list Trade)),
             k <> symbol -> <[symbol := []]> m !! k = m !! k)
    by (intros k m Hk; now rewrite lookup_insert_ne by congruence).
  destruct (nodeFetch env (klineParams symbol))
    as [[|[st|] [[|row rows]|]]|e];
    try (subst r; cbn; repeat split; auto using option_list_nil; fail).
  destruct (String.eqb st "ok");
    [|subst r; cbn; repeat split; auto using option_list_nil].
  cbn [ret] in Hr. set (w := sortByTimestamp _) in Hr.
  destruct (last w) as [t|] eqn:Hl;
    [|subst r; cbn; repeat split; auto using option_list_nil].
  unfold bind in Hr. cbn [setTrades setPrice modify snd] in Hr.
  match type of Hr with
  | context [automadeTrades env symbol w ?s0] =>
      destruct (automadeTrades_effect env symbol w t s0 Hl) as (Hn & _);
      destruct (automadeTrades_frame env symbol w s0)
        as (Hu & Hs & Hrep & _ & Ha & Hw & Hk);
      destruct (automadeTrades env symbol w s0) as [res s1]
  end.
  cbn [fst snd sent isUpdated wsUrl aliveCalls reported tradesMap priceMap]
    in *.
  subst res. subst r. cbn [snd]. rewrite Hu, Hs, Hrep, Ha, Hw.
  repeat split; auto using option_list_nil.
  - destruct (Hk k H1) as [-> _].
    now rewrite !lookup_insert_ne by congruence.
  - destruct (Hk k H1) as [_ ->].
    now rewrite lookup_insert_ne by congruence.
Qed.

Lemma forEach_preserves_in {A} (Q : State -> Prop) (f : A -> M unit)
      (l : list A) (s : State) :
  (forall x s0, In x l -> Q s0 -> Q (snd (f x s0))) ->
  Q s -> Q (snd (forEach f l s)).
Proof.
  revert s. induction l as [|x l IH]; intros s Hf Hs; [exact Hs|].
  cbn [forEach]. unfold bind.
  pose proof (Hf x s (or_introl eq_refl) Hs) as Hx.
  destruct (f x s) as [[[]|e] s1]; cbn [snd] in *; [|exact Hx].
  apply IH; [|exact Hx]. intros y s0 Hy. apply Hf. now right.
Qed.

Lemma initialize_state (env : Env) (s : State) :
  exists s1,
    forEach (initializeSymbol env) (symbols env) s = (Normal tt, s1) /\
    initialize env s
      = (Normal tt, snd (connect "wss://api.huobi.pro/ws"
                           (snd (setUpdated true s1)))).
Proof.
  pose proof (forEach_normal (initializeSymbol env) (symbols env) s
                (initializeSymbol_normal env)) as Hn.
  unfold initialize, bind.
  destruct (forEach (initializeSymbol env) (symbols env) s) as [[[]|e] s1];
    [|discriminate].
  exists s1. split; reflexivity.
Qed.

(** X10.  The bootstrap writes only under symbols that [getSymbols]
    lists: [initialize] leaves the window and the latest price of any
    other key of the shared store as they were. *)
Theorem initialize_writes_only_own_symbols (env : Env) (k : string)
        (s : State) :
  ~ In k (getSymbols env) ->
  tradesMap (snd (initialize env s)) !! k = tradesMap s !! k /\
  priceMap (snd (initialize env s)) !! k = priceMap s !! k.
Proof.
  intros Hk. destruct (initialize_state env s) as (s1 & Hs1 & ->).
  cbn [connect setUpdated modify snd tradesMap priceMap].
  change s1 with (snd (Normal tt, s1)). rewrite <- Hs1.
  apply (forEach_preserves_in
           (fun st => tradesMap st !! k = tradesMap s !! k /\
                      priceMap st !! k = priceMap s !! k)).
  - intros symbol s0 Hin [Ht Hp].
    destruct (advertised_keys env symbol k Hin Hk) as [Hne Hc].
    destruct (initializeSymbol_frame env symbol s0)
      as (_ & _ & _ & _ & _ & Hfr).
    destruct (Hfr k Hne Hc) as [-> ->]. now split.
  - now split.
Qed.

(** X11.  Start-up never fails on the bootstrap: whatever the REST
    endpoint answers for each symbol, [initialize] returns normally with
    the flag set and the stream opened on the Huobi endpoint, and it has
    sent no frame. *)
Theorem initialize_always_connects (env : Env) (s : State) :
  fst (initialize env s) = Normal tt /\
  wsUrl (snd (initialize env s)) = Some "wss://api.huobi.pro/ws" /\
  isUpdated (snd (initialize env s)) = true /\
  sent (snd (initialize env s)) = sent s.
Proof.
  destruct (initialize_state env s) as (s1 & Hs1 & ->).
  repeat split.
  cbn [connect setUpdated modify snd sent].
  change s1 with (snd (Normal tt, s1)). rewrite <- Hs1.
  apply (forEach_preserves (fun st => sent st = sent s)); [|reflexivity].
  intros symbol s0 Hq.
  now destruct (initializeSymbol_frame env symbol s0) as (-> & _).
Qed.

Lemma forEach_initialize_reported (env : Env) (l : list string) (s : State) :
  reported (snd (forEach (initializeSymbol env) l s))
  = (reported s ++ omap (fetchError env) l)%list.
Proof.
  revert s. induction l as [|x l IH]; intros s.
  - cbn. now rewrite app_nil_r.
  - cbn [forEach]. unfold bind.
    pose proof (initializeSymbol_normal env x s) as Hn.
    destruct (initializeSymbol_frame env x s) as (_ & _ & _ & _ & Hr & _).
    destruct (initializeSymbol env x s) as [[[]|e] s1]; [|discriminate].
    cbn [snd] in Hr. rewrite IH, Hr, <- app_assoc. f_equal.
    cbn [omap list_omap]. now destruct (fetchError env x).
Qed.

(** X12.  Bootstrap failures are reported one by one: after [initialize]
    the error channel has received, in the order of the configured
    symbols, exactly one error for every symbol whose request failed or
    whose answer was invalid, and none for the others. *)
Theorem initialize_reports_each_failure (env : Env) (s : State) :
  reported (snd (initialize env s))
  = (reported s ++ omap (fetchError env) (symbols env))%list.
Proof.
  destruct (initialize_state env s) as (s1 & Hs1 & ->).
  cbn [connect setUpdated modify snd reported].
  change s1 with (snd (Normal tt, s1)). rewrite <- Hs1.
  apply forEach_initialize_reported.
Qed.

(** X13.  A bootstrap that fails for a symbol (failed request, falsy
    body, status other than ok, data that is no array or is empty) is
    caught: the call returns normally, the error is reported once, the
    symbol's window is left empty, whatever it held before, and nothing
    else of the store changes: the symbol's latest price and the window
    and price of its base/KRW symbol stay as they were. *)
Theorem initializeSymbol_failure (env : Env) (symbol : string) (e : Exn)
        (s : State) :
  fetchError env symbol = Some e ->
  fst (initializeSymbol env symbol s) = Normal tt /\
  tradesMap (snd (initializeSymbol env symbol s))
    = <[symbol := []]> (tradesMap s) /\
  priceMap (snd (initializeSymbol env symbol s)) = priceMap s /\
  reported (snd (initializeSymbol env symbol s)) = (reported s ++ [e])%list.
Proof.
  intros He.
  destruct (initializeSymbol_frame env symbol s) as (_ & _ & _ & _ & Hr & _).
  rewrite He in Hr. split; [apply initializeSymbol_normal|].
  split; [|split; [|exact Hr]]; clear Hr.
  - remember (initializeSymbol env symbol s) as r eqn:Hr.
    unfold initializeSymbol, bind at 1, tryCatch, bind at 1,
      fetchLatestTrades in Hr.
    cbn [setTrades modify] in Hr. unfold fetchError in He.
    destruct (nodeFetch env (klineParams symbol))
      as [[|[st|] [[|row rows]|]]|e0];
      try (subst r; reflexivity).
    destruct (String.eqb st "ok"); [discriminate|].
    subst r. reflexivity.
  - remember (initializeSymbol env symbol s) as r eqn:Hr.
    unfold initializeSymbol, bind at 1, tryCatch, bind at 1,
      fetchLatestTrades in Hr.
    cbn [setTrades modify] in Hr. unfold fetchError in He.
    destruct (nodeFetch env (klineParams symbol))
      as [[|[st|] [[|row rows]|]]|e0];
      try (subst r; reflexivity).
    destruct (String.eqb st "ok"); [discriminate|].
    subst r. reflexivity.
Qed.

(** *** Ticks and the derived symbol *)

(** X14.  After an accepted tick of a symbol quoted in USDT, with a rate
    at hand, the window of base/KRW is the image of the symbol's window
    (every price divided by the rate), and the latest price of base/KRW
    is the price of the window's last trade divided by the rate, while
    the symbol's own latest price is the tick's close. *)
Theorem onData_synthesis_mirrors (env : Env) (d : StreamData)
        (symbol : string) (tk : Tick) (r : Decimal) (s : State) :
  tickTarget env d = Some (symbol, tk) ->
  rate env = Some r ->
  quoteIsUSDT symbol = true ->
  window (snd (onData env (JObject d) s)) (convertedSymbol symbol)
    = map (convertTrade r) (window (snd (onData env (JObject d) s)) symbol) /\
  priceMap (snd (onData env (JObject d) s)) !! symbol
    = Some (num (tick_close tk)) /\
  exists t,
    last (window (snd (onData env (JObject d) s)) symbol) = Some t /\
    priceMap (snd (onData env (JObject d) s)) !! convertedSymbol symbol
      = Some (dividedBy (price t) r).
Proof.
  intros Ht Hr Hq.
  destruct (onData_tick env d symbol tk s Ht) as (_ & Hw & Hp & _).
  rewrite Hw, Hp. clear Hw Hp.
  rewrite (onData_tick_eq env d symbol tk s Ht).
  set (trades := mergeTick _ _ _ _).
  destruct (mergeTick_last (tick_id tk * 1000) (num (tick_close tk))
              (num (tick_amount tk)) (window s symbol)) as [t Hl].
  fold trades in Hl.
  rewrite (automadeTrades_write env r symbol trades t _ Hr Hq Hl).
  unfold window.
  cbn [setUpdated setPrice setTrades modify snd tradesMap priceMap].
  rewrite !lookup_insert_eq. split; [reflexivity|]. split; [reflexivity|].
  exists t. split; [exact Hl|reflexivity].
Qed.

(** X15.  While the fiat provider has no rate, or for a symbol that is
    not quoted in USDT, an accepted tick writes the symbol's own window
    and latest price and nothing else: every other key of the store, the
    base/KRW symbol included, keeps its window and its price. *)
Theorem onData_gated_tick_writes_own_symbol (env : Env) (d : StreamData)
        (symbol : string) (tk : Tick) (s : State) :
  tickTarget env d = Some (symbol, tk) ->
  rate env = None \/ quoteIsUSDT symbol = false ->
  window (snd (onData env (JObject d) s)) symbol
    = mergeTick (tick_id tk * 1000) (num (tick_close tk))
                (num (tick_amount tk)) (window s symbol) /\
  forall k,
    k <> symbol ->
    tradesMap (snd (onData env (JObject d) s)) !! k = tradesMap s !! k /\
    priceMap (snd (onData env (JObject d) s)) !! k = priceMap s !! k.
Proof.
  intros Ht Hg.
  destruct (onData_tick env d symbol tk s Ht) as (_ & Hw & _).
  destruct (onData_tick_frame env d symbol tk s Ht) as (_ & _ & _ & Hfr).
  split; [exact Hw|]. intros k Hk. apply Hfr; [exact Hk|]. now right.
Qed.

Lemma mergeTick_fixed (ts : Z) (p v : Decimal) (l1 l2 : Trades) :
  ~ In ts (map timestamp l1) ->
  mergeTick ts p v
    (l1 ++ {| price := p; volume := v; timestamp := ts |} :: l2)
  = (l1 ++ {| price := p; volume := v; timestamp := ts |} :: l2)%list.
Proof.
  intros Hn. unfold mergeTick.
  assert (Hfu :
    find (hasTimestamp ts)
      (l1 ++ {| price := p; volume := v; timestamp := ts |} :: l2)
    = Some {| price := p; volume := v; timestamp := ts |} /\
    updateTrade ts p v
      (l1 ++ {| price := p; volume := v; timestamp := ts |} :: l2)
    = (l1 ++ {| price := p; volume := v; timestamp := ts |} :: l2)%list).
  { induction l1 as [|x l IH]; cbn [app find updateTrade].
    - rewrite (hasTimestamp_new ts p v). split; reflexivity.
    - cbn [map In] in Hn.
      assert (Hx : hasTimestamp ts x = false).
      { unfold hasTimestamp. apply Z.eqb_neq. tauto. }
      rewrite Hx. destruct IH as [IHf IHu]; [tauto|].
      rewrite IHf, IHu. split; reflexivity. }
  destruct Hfu as [-> Hu]. exact Hu.
Qed.

(** Merging the same tick again changes nothing. *)
Lemma mergeTick_idempotent (ts : Z) (p v : Decimal) (w : Trades) :
  mergeTick ts p v (mergeTick ts p v w) = mergeTick ts p v w.
Proof.
  destruct (find (hasTimestamp ts) w) as [t|] eqn:Hf.
  - destruct (updateTrade_split ts p v w t Hf)
      as (l1 & x & l2 & _ & Hn & _ & Hu).
    unfold mergeTick at 2 3. rewrite Hf, Hu. now apply mergeTick_fixed.
  - unfold mergeTick at 2 3. rewrite Hf.
    apply mergeTick_fixed. now apply find_hasTimestamp_None.
Qed.

(** The store after an accepted tick. *)
Lemma onData_tick_store (env : Env) (d : StreamData) (symbol : string)
      (tk : Tick) (s : State) :
  tickTarget env d = Some (symbol, tk) ->
  exists (w : Trades) (t : Trade),
    w = mergeTick (tick_id tk * 1000) (num (tick_close tk))
                  (num (tick_amount tk)) (window s symbol) /\
    last w = Some t /\
    tradesMap (snd (onData env (JObject d) s))
      = match rate env with
        | Some r =>
            if quoteIsUSDT symbol
            then <[convertedSymbol symbol := map (convertTrade r) w]>
                   (<[symbol := w]> (tradesMap s))
            else <[symbol := w]> (tradesMap s)
        | None => <[symbol := w]> (tradesMap s)
        end /\
    priceMap (snd (onData env (JObject d) s))
      = match rate env with
        | Some r =>
            if quoteIsUSDT symbol
            then <[convertedSymbol symbol := dividedBy (price t) r]>
                   (<[symbol := num (tick_close tk)]> (priceMap s))
            else <[symbol := num (tick_close tk)]> (priceMap s)
        | None => <[symbol := num (tick_close tk)]> (priceMap s)
        end.
Proof.
  intros Ht. rewrite (onData_tick_eq env d symbol tk s Ht).
  set (w := mergeTick _ _ _ _).
  destruct (mergeTick_last (tick_id tk * 1000) (num (tick_close tk))
              (num (tick_amount tk)) (window s symbol)) as [t Hl].
  fold w in Hl. exists w, t. split; [reflexivity|]. split; [exact Hl|].
  destruct (rate env) as [r|] eqn:Hr;
    [destruct (quoteIsUSDT symbol) eqn:Hq|].
  - rewrite (automadeTrades_write env r symbol w t _ Hr Hq Hl).
    split; reflexivity.
  - rewrite (automadeTrades_skip env symbol w _ (or_intror Hq)).
    split; reflexivity.
  - rewrite (automadeTrades_skip env symbol w _ (or_introl Hr)).
    split; reflexivity.
Qed.

Lemma insert_twice_pair {V} (a b : string) (x y : V) (m : gmap string V) :
  <[a := x]> (<[b := y]> (<[a := x]> (<[b := y]> m)))
  = <[a := x]> (<[b := y]> m).
Proof.
  apply map_eq. intros k. rewrite !lookup_insert.
  repeat case_decide; reflexivity.
Qed.

(** X16.  Handling the same tick payload a second time leaves the
    symbol's own window and latest price, and the flag, as the first
    handling left them, whatever the rate is at either call.  When the
    fiat provider answers the second call with the same rate as the
    first (the synthesizer reads the rate anew at every call), the whole
    shared store is as the first handling left it: every window and
    every latest price, the derived ones included. *)
Theorem onData_repeated_tick_idempotent (env env2 : Env) (d : StreamData)
        (symbol : string) (tk : Tick) (s : State) :
  tickTarget env d = Some (symbol, tk) ->
  tickTarget env2 d = Some (symbol, tk) ->
  window (snd (onData env2 (JObject d) (snd (onData env (JObject d) s))))
         symbol
    = window (snd (onData env (JObject d) s)) symbol /\
  priceMap (snd (onData env2 (JObject d) (snd (onData env (JObject d) s))))
    !! symbol
    = priceMap (snd (onData env (JObject d) s)) !! symbol /\
  isUpdated (snd (onData env2 (JObject d) (snd (onData env (JObject d) s))))
    = isUpdated (snd (onData env (JObject d) s)) /\
  (rate env2 = rate env ->
   tradesMap (snd (onData env2 (JObject d) (snd (onData env (JObject d) s))))
     = tradesMap (snd (onData env (JObject d) s)) /\
   priceMap (snd (onData env2 (JObject d) (snd (onData env (JObject d) s))))
     = priceMap (snd (onData env (JObject d) s))).
Proof.
  intros Ht Ht2.
  set (s1 := snd (onData env (JObject d) s)).
  destruct (onData_tick env d symbol tk s Ht)
    as (_ & Hw1 & Hp1 & Hu1 & _).
  destruct (onData_tick env2 d symbol tk s1 Ht2)
    as (_ & Hw2 & Hp2 & Hu2 & _).
  fold s1 in Hw1, Hp1, Hu1.
  assert (Hsame : window (snd (onData env2 (JObject d) s1)) symbol
                  = window s1 symbol).
  { rewrite Hw2, Hw1. apply mergeTick_idempotent. }
  split; [exact Hsame|]. split; [congruence|]. split; [congruence|].
  intros Hrate.
  destruct (onData_tick_store env d symbol tk s Ht)
    as (w & t & Hw & Hl & Htm & Hpm).
  destruct (onData_tick_store env2 d symbol tk s1 Ht2)
    as (w' & t' & Hw' & Hl' & Htm' & Hpm').
  fold s1 in Htm, Hpm. rewrite Hrate in Htm', Hpm'.
  assert (Hww : w' = w).
  { rewrite Hw', Hw1, <- Hw. rewrite Hw. apply mergeTick_idempotent. }
  clear Hw'. subst w'. assert (t' = t) as -> by congruence.
  split.
  - rewrite Htm', Htm.
    destruct (rate env) as [r|]; [destruct (quoteIsUSDT symbol)|].
    + apply insert_twice_pair.
    + apply insert_insert_eq.
    + apply insert_insert_eq.
  - rewrite Hpm', Hpm.
    destruct (rate env) as [r|]; [destruct (quoteIsUSDT symbol)|].
    + apply insert_twice_pair.
    + apply insert_insert_eq.
    + apply insert_insert_eq.
Qed.

(** X17.  A bootstrap that yields trades for a symbol quoted in USDT,
    with a rate at hand, also seeds base/KRW: its window is the image of
    the symbol's bootstrapped window and its latest price is the price of
    the last bootstrapped trade divided by the rate. *)
Theorem bootstrap_synthesizes (env : Env) (symbol : string)
        (rows : list Candle) (r : Decimal) (t : Trade) (s : State) :
  nodeFetch env (klineParams symbol)
    = Normal (RespObject (Some "ok") (Some rows)) ->
  rows <> [] ->
  rate env = Some r ->
  quoteIsUSDT symbol = true ->
  last (sortByTimestamp (map tradeOfCandle (List.filter positiveVol rows)))
    = Some t ->
  window (snd (initializeSymbol env symbol s)) (convertedSymbol symbol)
    = map (convertTrade r)
          (window (snd (initializeSymbol env symbol s)) symbol) /\
  priceMap (snd (initializeSymbol env symbol s)) !! convertedSymbol symbol
    = Some (dividedBy (price t) r).
Proof.
  intros Hf Hne Hr Hq Hl.
  destruct (initializeSymbol_window env symbol rows s Hf Hne) as [Hw _].
  rewrite Hw. clear Hw.
  rewrite (initializeSymbol_ok env symbol rows s Hf Hne), Hl.
  rewrite (automadeTrades_write env r symbol _ t _ Hr Hq Hl).
  unfold window.
  cbn [setPrice setTrades modify snd tradesMap priceMap].
  rewrite !lookup_insert_eq. split; reflexivity.
Qed.

(** *** Frames *)

Lemma onData_keeps_traces (env : Env) (m : Decoded) (s : State) :
  reported (snd (onData env m s)) = reported s /\
  aliveCalls (snd (onData env m s)) = aliveCalls s.
Proof.
  destruct m as [|d]; [split; reflexivity|].
  destruct (tickTarget env d) as [[symbol tk]|] eqn:Ht.
  - destruct (onData_tick env d symbol tk s Ht)
      as (_ & _ & _ & _ & _ & Hr & _).
    destruct (onData_tick_frame env d symbol tk s Ht) as (_ & Ha & _).
    now split.
  - destruct (onData_no_tick_frame env d s Ht)
      as (_ & _ & _ & Hr & _ & Ha & _).
    now split.
Qed.

(** X18.  Once a frame is inflated, [onRawData] cannot throw: a text that
    is no JSON, or an exception of [onData] (a rejected subscription, an
    unknown message), is handed to the error channel, once, and the call
    still ends with exactly one [alive()]. *)
Theorem onRawData_reports_and_stays_alive (codec : Codec) (env : Env)
        (frame : list Byte.byte) (text : string) (s : State) :
  inflate codec frame = Normal text ->
  fst (onRawData codec env frame s) = Normal tt /\
  aliveCalls (snd (onRawData codec env frame s)) = S (aliveCalls s) /\
  reported (snd (onRawData codec env frame s))
    = (reported s
       ++ match JSON_parse codec text with
          | Throw e => [e]
          | Normal m =>
              match fst (onData env m s) with
              | Throw e => [e]
              | Normal _ => []
              end
          end)%list.
Proof.
  intros Hi. remember (onRawData codec env frame s) as r eqn:Hr.
  unfold onRawData, bind, tryCatch in Hr. rewrite Hi in Hr.
  cbn [lift ret] in Hr.
  destruct (JSON_parse codec text) as [m|e]; cbn [lift ret throw] in Hr.
  - destruct (onData_keeps_traces env m s) as [Hrep Ha].
    destruct (onData env m s) as [[[]|e] s1]; cbn [fst snd] in *; subst r;
      cbn [errorHandler alive modify fst snd aliveCalls reported];
      rewrite ?Hrep, ?Ha, ?app_nil_r; repeat split.
  - subst r. repeat split.
Qed.

End MoreProperties.

(** ** The further properties on concrete inputs *)

(** A ping is answered and leaves the store alone. *)
Lemma onData_only_ticks_mutate_witness :
  tickOf btcEnv (JObject pingData) = None /\
  tradesMap (snd (onData btcEnv (JObject pingData) initialState))
    = tradesMap initialState.
Proof.
  split; [reflexivity|].
  destruct (onData_only_ticks_mutate btcEnv (JObject pingData) initialState)
    as [Hkeep _]; [reflexivity|exact Hkeep].
Defined.

(** A kline message of DOGE/USDT while only BTC/USDT is configured. *)
Lemma onData_unknown_channel_ignored_witness :
  findSymbol btcEnv dogeChannel = None /\
  onData btcEnv (tickMessage dogeChannel 60 1 1) initialState
    = (Normal tt, initialState).
Proof.
  split; [vm_compute; reflexivity|].
  apply (onData_unknown_channel_ignored btcEnv (tickData dogeChannel 60 1 1)
           initialState);
    vm_compute; reflexivity.
Defined.

(** A subscription answered with another status than ok. *)
Lemma onData_subscription_answer_witness :
  truthyString (subbed (subbedData "error")) = true /\
  status (subbedData "error") <> Some "ok" /\
  onData btcEnv (JObject (subbedData "error")) initialState
    = (Throw (ProtocolError (subbedData "error")), initialState).
Proof.
  split; [reflexivity|]. split; [discriminate|].
  destruct (onData_subscription_answer btcEnv (subbedData "error")
              initialState) as [_ Hrej]; [reflexivity|reflexivity|].
  apply Hrej. discriminate.
Defined.

(** The channel subscribed for BTC/USDT leads back to BTC/USDT. *)
Lemma subscription_channel_resolves_witness :
  In "BTC/USDT" (symbols btcEnv) /\
  allChars isUpperAlnum (stripSlash "BTC/USDT") = true /\
  subscriptionChannel "BTC/USDT" = btcChannel /\
  findSymbol btcEnv (subscriptionChannel "BTC/USDT") = Some "BTC/USDT".
Proof.
  split; [now left|]. split; [vm_compute; reflexivity|].
  split; [vm_compute; reflexivity|].
  destruct (subscription_channel_resolves btcEnv "BTC/USDT")
    as [_ Hsame]; [now left|vm_compute; reflexivity|].
  apply Hsame. vm_compute. repeat constructor. intros [].
Defined.

Lemma findSymbol_never_lower_case_witness :
  findSymbol btcEnv btcChannel = Some "BTC/USDT" /\
  allChars (fun a => negb (isLowerLetter a)) (stripSlash "BTC/USDT") = true.
Proof.
  split; [vm_compute; reflexivity|].
  apply (findSymbol_never_lower_case btcEnv btcChannel "BTC/USDT").
  vm_compute. reflexivity.
Defined.

(** A tick of BTC/USDT and the start of the adapter leave DOGE/USDT
    alone. *)
Lemma onData_writes_only_own_symbols_witness :
  ~ In "DOGE/USDT" (getSymbols btcEnv) /\
  tradesMap (snd (onData btcEnv (tickMessage btcChannel 60 (50000 # 1) 2)
                    initialState)) !! "DOGE/USDT"
    = tradesMap initialState !! "DOGE/USDT".
Proof.
  assert (Hout : ~ In "DOGE/USDT" (getSymbols btcEnv))
    by (vm_compute; intros [Hx|[Hx|[]]]; discriminate).
  split; [exact Hout|].
  apply (onData_writes_only_own_symbols btcEnv
           (tickMessage btcChannel 60 (50000 # 1) 2) "DOGE/USDT" initialState
           Hout).
Defined.

Lemma initialize_writes_only_own_symbols_witness :
  ~ In "DOGE/USDT" (getSymbols btcEnv) /\
  tradesMap (snd (initialize btcEnv initialState)) !! "DOGE/USDT"
    = tradesMap initialState !! "DOGE/USDT".
Proof.
  assert (Hout : ~ In "DOGE/USDT" (getSymbols btcEnv))
    by (vm_compute; intros [Hx|[Hx|[]]]; discriminate).
  split; [exact Hout|].
  apply (initialize_writes_only_own_symbols btcEnv "DOGE/USDT" initialState
           Hout).
Defined.

(** The request for ETH/USDT fails: one report, an empty window. *)
Lemma initializeSymbol_failure_witness :
  fetchError mixedEnv "ETH/USDT" = Some (LibraryError "ECONNRESET") /\
  tradesMap (snd (initializeSymbol mixedEnv "ETH/USDT" initialState))
    = <["ETH/USDT" := []]> (tradesMap initialState) /\
  reported (snd (initializeSymbol mixedEnv "ETH/USDT" initialState))
    = [LibraryError "ECONNRESET"].
Proof.
  split; [vm_compute; reflexivity|].
  destruct (initializeSymbol_failure mixedEnv "ETH/USDT"
              (LibraryError "ECONNRESET") initialState)
    as (_ & Hw & _ & Hr); [vm_compute; reflexivity|].
  split; [exact Hw|exact Hr].
Defined.

(** A tick of BTC/USDT at the rate 1300. *)
Lemma onData_synthesis_mirrors_witness :
  tickTarget btcEnv (tickData btcChannel 60 (50000 # 1) 2)
    = Some ("BTC/USDT",
            {| tick_id := 60; tick_close := 50000 # 1; tick_amount := 2 |}) /\
  rate btcEnv = Some (1300 # 1)%Q /\
  quoteIsUSDT "BTC/USDT" = true /\
  window (snd (onData btcEnv (tickMessage btcChannel 60 (50000 # 1) 2)
                 initialState)) (convertedSymbol "BTC/USDT")
    = map (convertTrade (1300 # 1)%Q)
          (window (snd (onData btcEnv
                          (tickMessage btcChannel 60 (50000 # 1) 2)
                          initialState)) "BTC/USDT").
Proof.
  split; [vm_compute; reflexivity|]. split; [reflexivity|].
  split; [vm_compute; reflexivity|].
  destruct (onData_synthesis_mirrors btcEnv
              (tickData btcChannel 60 (50000 # 1) 2) "BTC/USDT"
              {| tick_id := 60; tick_close := 50000 # 1; tick_amount := 2 |}
              (1300 # 1)%Q initialState)
    as [Hmirror _];
    [vm_compute; reflexivity | reflexivity | vm_compute; reflexivity |].
  exact Hmirror.
Defined.

(** The same tick while there is no rate: BTC/KRW stays absent. *)
Lemma onData_gated_tick_writes_own_symbol_witness :
  (rate noRateEnv = None \/ quoteIsUSDT "BTC/USDT" = false) /\
  "BTC/KRW" <> "BTC/USDT" /\
  tradesMap (snd (onData noRateEnv (tickMessage btcChannel 60 (50000 # 1) 2)
                    initialState)) !! "BTC/KRW"
    = tradesMap initialState !! "BTC/KRW".
Proof.
  split; [left; reflexivity|]. split; [discriminate|].
  destruct (onData_gated_tick_writes_own_symbol noRateEnv
              (tickData btcChannel 60 (50000 # 1) 2) "BTC/USDT"
              {| tick_id := 60; tick_close := 50000 # 1; tick_amount := 2 |}
              initialState)
    as [_ Hother]; [vm_compute; reflexivity | left; reflexivity |].
  destruct (Hother "BTC/KRW") as [Hw _]; [discriminate|exact Hw].
Defined.

(** The same tick twice at the same rate, and once more after the rate
    has gone: the window of BTC/USDT is the same each time. *)
Lemma onData_repeated_tick_idempotent_witness :
  tickTarget btcEnv (tickData btcChannel 60 (50000 # 1) 2)
    = Some ("BTC/USDT",
            {| tick_id := 60; tick_close := 50000 # 1; tick_amount := 2 |}) /\
  rate btcEnv = rate btcEnv /\
  tradesMap
    (snd (onData btcEnv (tickMessage btcChannel 60 (50000 # 1) 2)
            (snd (onData btcEnv (tickMessage btcChannel 60 (50000 # 1) 2)
                    initialState))))
  = tradesMap (snd (onData btcEnv (tickMessage btcChannel 60 (50000 # 1) 2)
                      initialState)) /\
  window
    (snd (onData noRateEnv (tickMessage btcChannel 60 (50000 # 1) 2)
            (snd (onData btcEnv (tickMessage btcChannel 60 (50000 # 1) 2)
                    initialState))))
    "BTC/USDT"
  = window (snd (onData btcEnv (tickMessage btcChannel 60 (50000 # 1) 2)
                   initialState)) "BTC/USDT".
Proof.
  split; [vm_compute; reflexivity|]. split; [reflexivity|]. split.
  - destruct (onData_repeated_tick_idempotent btcEnv btcEnv
                (tickData btcChannel 60 (50000 # 1) 2) "BTC/USDT"
                {| tick_id := 60; tick_close := 50000 # 1; tick_amount := 2 |}
                initialState)
      as (_ & _ & _ & Hstore);
      [vm_compute; reflexivity | vm_compute; reflexivity |].
    destruct (Hstore eq_refl) as [Hsame _]. exact Hsame.
  - destruct (onData_repeated_tick_idempotent btcEnv noRateEnv
                (tickData btcChannel 60 (50000 # 1) 2) "BTC/USDT"
                {| tick_id := 60; tick_close := 50000 # 1; tick_amount := 2 |}
                initialState)
      as (Hwin & _);
      [vm_compute; reflexivity | vm_compute; reflexivity |].
    exact Hwin.
Defined.

(** The rate is read at every call: the same tick handled again after the
    rate has moved from 1300 to 1301 leaves BTC/USDT as it was and gives
    BTC/KRW another latest price. *)
Lemma repeated_tick_follows_rate :
  priceMap (snd (onData btcEnv (tickMessage btcChannel 60 (50000 # 1) 2)
                   initialState)) !! "BTC/KRW"
    = Some (@dividedBy QDecimal (50000 # 1)%Q (1300 # 1)%Q) /\
  priceMap
    (snd (onData laterRateEnv (tickMessage btcChannel 60 (50000 # 1) 2)
            (snd (onData btcEnv (tickMessage btcChannel 60 (50000 # 1) 2)
                    initialState)))) !! "BTC/KRW"
    = Some (@dividedBy QDecimal (50000 # 1)%Q (1301 # 1)%Q) /\
  ~ (@dividedBy QDecimal (50000 # 1)%Q (1300 # 1)%Q
     == @dividedBy QDecimal (50000 # 1)%Q (1301 # 1)%Q)%Q.
Proof.
  split; [vm_compute; reflexivity|]. split; [vm_compute; reflexivity|].
  vm_compute. discriminate.
Qed.

(** The bootstrap of BTC/USDT at the rate 1300: the last candle closes at
    10, the latest price of BTC/KRW is 10 / 1300. *)
Lemma bootstrap_synthesizes_witness :
  rate btcEnv = Some (1300 # 1)%Q /\
  quoteIsUSDT "BTC/USDT" = true /\
  priceMap (snd (initializeSymbol btcEnv "BTC/USDT" initialState))
    !! convertedSymbol "BTC/USDT"
  = Some (@dividedBy QDecimal 10%Q (1300 # 1)%Q).
Proof.
  split; [reflexivity|]. split; [vm_compute; reflexivity|].
  destruct (bootstrap_synthesizes btcEnv "BTC/USDT"
              [candle 100 10 1 5; candle 90 9 1 3] (1300 # 1)%Q
              (@Build_Trade QDecimal 10%Q 1%Q 100000)
              initialState)
    as [_ Hp];
    [reflexivity | discriminate | reflexivity | vm_compute; reflexivity
     | vm_compute; reflexivity |].
  exact Hp.
Defined.

(** An empty object is no known message: through [onRawData] its error is
    reported and the call returns. *)
Lemma onRawData_reports_and_stays_alive_witness :
  inflate emptyObjectCodec helloFrame = Normal "{}" /\
  fst (onRawData emptyObjectCodec btcEnv helloFrame initialState)
    = Normal tt /\
  reported (snd (onRawData emptyObjectCodec btcEnv helloFrame initialState))
    = [ProtocolError unknownData].
Proof.
  split; [reflexivity|].
  destruct (onRawData_reports_and_stays_alive emptyObjectCodec btcEnv
              helloFrame "{}" initialState)
    as (Hn & _ & Hr); [reflexivity|].
  split; [exact Hn|exact Hr].
Defined.
